(** * Local Lore: the aggregation pipeline and its text summarizer

    A shallow embedding of [src/main.py]: the Wikimedia client
    ([search_wikipedia], [get_article_content], [get_commons_images],
    [get_wikivoyage_content]), the three endpoints built on it
    ([search_locations], [get_heritage_content], [get_nearby_heritage]) and
    the text-derivation functions ([extract_heritage_facts],
    [extract_cultural_info], [extract_historical_dates]).

    Conventions of the embedding.
    - A Python [str] is a [string]; its characters stand for the code
      points 0..255, and the character classes below ([is_space],
      [is_word], [is_digit], [lower_char]) are those of Python's [str]
      methods and of [re] on that range. Texts with code points beyond
      255 are outside the embedding.
    - A Python value that comes out of [response.json()] is a [json]. A
      [dict] is an association list in insertion order; the first binding
      of a key is the one that counts.
    - A Python call that may raise returns a [result]; [try ... except
      Exception: return v] is [try_except], and [try ... except Exception:
      raise e] is [try_reraise].
    - The network is a function [net] from a request to the outcome of
      [session.get(...)] followed by [response.json()]: the decoded body,
      or an exception (transport fault, timeout, undecodable body). The
      coroutines run one after the other: they share no state, so the
      interleaving of [asyncio.gather] does not show in the results.
    - [set(years)] is visited in an order the language does not fix;
      [historical_dates] relates a text to every result some order gives,
      and [extract_historical_dates] computes with one order. *)

From Stdlib Require Import Strings.String Strings.Ascii.
From Stdlib Require Import Lists.List Bool.Bool Arith.PeanoNat.
From Stdlib Require Import NArith.NArith ZArith.ZArith QArith.QArith.
From Stdlib Require Import Sorting.Permutation Sorting.Sorted.
From Stdlib Require Import micromega.Lia.
Import ListNotations.

Local Close Scope Q_scope.

Local Open Scope list_scope.
Local Open Scope string_scope.
Local Open Scope bool_scope.

(* ================================================================= *)
(** ** Python strings *)

Module PyStr.

(** Code point of a character. *)
Definition code (c : ascii) : N := N_of_ascii c.

Definition in_range (lo hi : N) (c : ascii) : bool :=
  (lo <=? code c)%N && (code c <=? hi)%N.

(** [str.isspace], which is also what [str.strip()] removes and what [\s]
    matches: TAB..CR, FS..US, space, NEL and NBSP. *)
Definition is_space (c : ascii) : bool :=
  in_range 9 13 c || in_range 28 32 c
  || (code c =? 133)%N || (code c =? 160)%N.

(** The class [[0-9]]; on code points 0..255 it is also [\d]. *)
Definition is_digit (c : ascii) : bool := in_range 48 57 c.

(** [\w]: alphanumeric for [str.isalnum], or the underscore. *)
Definition is_word (c : ascii) : bool :=
  in_range 48 57 c || in_range 65 90 c || (code c =? 95)%N
  || in_range 97 122 c
  || (code c =? 170)%N || in_range 178 179 c || (code c =? 181)%N
  || in_range 185 186 c || in_range 188 190 c
  || in_range 192 214 c || in_range 216 246 c || in_range 248 255 c.

(** [str.lower] on one character: A..Z and the capital letters of the
    Latin-1 supplement (all of 192..222 but the multiplication sign). *)
Definition lower_char (c : ascii) : ascii :=
  if in_range 65 90 c || (in_range 192 222 c && negb (code c =? 215)%N)
  then ascii_of_N (code c + 32) else c.

Fixpoint lower (s : string) : string :=
  match s with
  | EmptyString => EmptyString
  | String c r => String (lower_char c) (lower r)
  end.

Fixpoint lstrip (s : string) : string :=
  match s with
  | EmptyString => EmptyString
  | String c r => if is_space c then lstrip r else s
  end.

Fixpoint rstrip (s : string) : string :=
  match s with
  | EmptyString => EmptyString
  | String c r =>
      match rstrip r with
      | EmptyString => if is_space c then EmptyString else String c EmptyString
      | r' => String c r'
      end
  end.

(** [s.strip()] *)
Definition strip (s : string) : string := rstrip (lstrip s).

(** [needle in hay] for two strings. *)
Fixpoint contains (needle hay : string) : bool :=
  prefix needle hay
  || match hay with
     | EmptyString => false
     | String _ r => contains needle r
     end.

(** [s.split(sep)] for a non-empty [sep]: the text is scanned from the
    left; at an occurrence of [sep] the current piece is closed and the
    scan resumes after the separator ([skip] counts the characters of the
    separator still to pass). The head of the result is the piece being
    read. *)
Fixpoint split_go (sep : string) (skip : nat) (s : string) : list string :=
  match s with
  | EmptyString => [EmptyString]
  | String c r =>
      match skip with
      | S k => split_go sep k r
      | O =>
          if prefix sep s
          then EmptyString :: split_go sep (String.length sep - 1) r
          else match split_go sep 0 r with
               | h :: t => String c h :: t
               | [] => [String c EmptyString]
               end
      end
  end.

Definition split (sep s : string) : list string := split_go sep 0 s.

(** [s.replace(old, new)] for a non-empty [old]. *)
Fixpoint replace_go (old new : string) (skip : nat) (s : string) : string :=
  match s with
  | EmptyString => EmptyString
  | String c r =>
      match skip with
      | S k => replace_go old new k r
      | O =>
          if prefix old s
          then new ++ replace_go old new (String.length old - 1) r
          else String c (replace_go old new 0 r)
      end
  end.

Definition replace (old new s : string) : string := replace_go old new 0 s.

(** [a <= b] on strings: lexicographic on code points. *)
Definition le (a b : string) : bool := String.leb a b.

End PyStr.

(* ================================================================= *)
(** ** The two patterns of [extract_historical_dates] *)

Module Re.
Import PyStr.

Definition is_word_at (c : option ascii) : bool :=
  match c with Some c => is_word c | None => false end.

(** [\b] between the character before the position ([None] at the start
    of the text) and the character at it ([None] at the end). *)
Definition word_boundary (prev next : option ascii) : bool :=
  xorb (is_word_at prev) (is_word_at next).

Definition head (s : string) : option ascii :=
  match s with EmptyString => None | String c _ => Some c end.

Definition chr (c d : ascii) : bool := Ascii.eqb c d.

(** A literal character of a pattern compiled with [re.IGNORECASE]; the
    pattern's letters are lower case. *)
Definition ichr (p c : ascii) : bool := Ascii.eqb (lower_char c) p.

(** A literal word under [re.IGNORECASE]: the rest of the text after it. *)
Fixpoint ilit (p s : string) : option string :=
  match p with
  | EmptyString => Some s
  | String pc p' =>
      match s with
      | String c r => if ichr pc c then ilit p' r else None
      | EmptyString => None
      end
  end.

(** [re.findall]: the text is scanned from the left; where the pattern
    matches, its groups are recorded and the scan resumes after the match
    ([skip] counts the characters of the match still to pass). [m prev s]
    tries the pattern at the suffix [s] whose preceding character is
    [prev], and gives the groups and the length of the match. Neither
    pattern below matches the empty suffix. *)
Fixpoint findall_go {A : Type}
    (m : option ascii -> string -> option (A * nat))
    (skip : nat) (prev : option ascii) (s : string) : list A :=
  match s with
  | EmptyString => []
  | String c r =>
      match skip with
      | S k => findall_go m k (Some c) r
      | O =>
          match m prev s with
          | Some (g, len) => g :: findall_go m (len - 1) (Some c) r
          | None => findall_go m 0 (Some c) r
          end
      end
  end.

Definition findall {A : Type}
    (m : option ascii -> string -> option (A * nat)) (text : string)
  : list A := findall_go m 0 None text.

(** [1[0-9]{3}|20[0-2][0-9]] on four characters. *)
Definition year_digits (c1 c2 c3 c4 : ascii) : bool :=
  (chr c1 "1" && is_digit c2 && is_digit c3 && is_digit c4)
  || (chr c1 "2" && chr c2 "0" && in_range 48 50 c3 && is_digit c4).

(** [year_pattern = r'\b(1[0-9]{3}|20[0-2][0-9])\b'] tried at one position. *)
Definition year_pattern (prev : option ascii) (s : string)
  : option (string * nat) :=
  match s with
  | String c1 (String c2 (String c3 (String c4 rest))) =>
      if word_boundary prev (Some c1)
         && year_digits c1 c2 c3 c4
         && word_boundary (Some c4) (head rest)
      then Some (String c1 (String c2 (String c3 (String c4 EmptyString))), 4)
      else None
  | _ => None
  end.

(** [(st|nd|rd|th)] under [re.IGNORECASE]. *)
Definition ordinal_suffix (a b : ascii) : bool :=
  (ichr "s" a && ichr "t" b) || (ichr "n" a && ichr "d" b)
  || (ichr "r" a && ichr "d" b) || (ichr "t" a && ichr "h" b).

(** [\s*]: the text after the leading white space, and how much there was. *)
Fixpoint skip_spaces (s : string) : string * nat :=
  match s with
  | String c r =>
      if is_space c then let (t, n) := skip_spaces r in (t, S n) else (s, 0)
  | EmptyString => (s, 0)
  end.

(** [(st|nd|rd|th)\s+century\b] after the digits [ds]: the two groups and
    the length of the whole match. *)
Definition century_tail (ds : string) (s : string)
  : option ((string * string) * nat) :=
  match s with
  | String a (String b r) =>
      if ordinal_suffix a b then
        let (t, n) := skip_spaces r in
        match n with
        | O => None
        | S _ =>
            match ilit "century" t with
            | Some u =>
                if word_boundary (Some "y"%char) (head u)
                then Some ((ds, String a (String b EmptyString)),
                           String.length ds + 2 + n + 7)
                else None
            | None => None
            end
        end
      else None
  | _ => None
  end.

(** [century_pattern = r'\b(\d{1,2})(st|nd|rd|th)\s+century\b'] with
    [re.IGNORECASE], tried at one position. [\d{1,2}] is greedy: two
    digits are taken when there are two, and giving one back cannot help,
    since a digit is no ordinal suffix; likewise [\s+] takes all the white
    space, and giving some back leaves white space where [c] must stand. *)
Definition century_pattern (prev : option ascii) (s : string)
  : option ((string * string) * nat) :=
  match s with
  | String d1 r1 =>
      if word_boundary prev (Some d1) && is_digit d1 then
        match r1 with
        | String d2 r2 =>
            if is_digit d2
            then century_tail (String d1 (String d2 EmptyString)) r2
            else century_tail (String d1 EmptyString) r1
        | EmptyString => None
        end
      else None
  | EmptyString => None
  end.

End Re.

(* ================================================================= *)
(** ** Python values and exceptions *)

(** What [response.json()] can give, and what the endpoints build from it. *)
#[warnings="-register-all"]
Inductive json : Type :=
| JNull
| JBool (b : bool)
| JNum (q : Q)
| JStr (s : string)
| JList (l : list json)
| JDict (d : list (string * json)).

(** The exceptions the program distinguishes: the [HTTPException] an
    endpoint raises on purpose, and every other [Exception]. *)
Inductive exn : Type :=
| Exception
| HTTPException (status_code : Z) (detail : string).

Inductive result (A : Type) : Type :=
| Ok (a : A)
| Raise (e : exn).

Arguments Ok {A} a.
Arguments Raise {A} e.

Definition bind {A B : Type} (r : result A) (k : A -> result B) : result B :=
  match r with
  | Ok a => k a
  | Raise e => Raise e
  end.

Notation "x <- r ;; k" := (bind r (fun x => k))
  (at level 61, r at next level, right associativity).

(** [try: body  except Exception: return handler] *)
Definition try_except {A : Type} (body : result A) (handler : A) : result A :=
  match body with
  | Ok a => Ok a
  | Raise _ => Ok handler
  end.

(** [try: body  except Exception: raise e] *)
Definition try_reraise {A : Type} (body : result A) (e : exn) : result A :=
  match body with
  | Ok a => Ok a
  | Raise _ => Raise e
  end.

Module Py.
Import PyStr.

Fixpoint lookup (k : string) (d : list (string * json)) : option json :=
  match d with
  | [] => None
  | (k', v) :: d' => if String.eqb k k' then Some v else lookup k d'
  end.

Definition is_str (k : string) (j : json) : bool :=
  match j with JStr s => String.eqb k s | _ => false end.

(** [bool(x)], as [if not x] tests it. *)
Definition truthy (j : json) : bool :=
  match j with
  | JNull => false
  | JBool b => b
  | JNum q => negb (Qeq_bool q 0)
  | JStr s => negb (String.eqb s EmptyString)
  | JList l => match l with [] => false | _ => true end
  | JDict d => match d with [] => false | _ => true end
  end.

(** [k in x] for a string [k]: a key of a dict, an element of a list, a
    substring of a string; [TypeError] on anything else. *)
Definition contains_key (k : string) (x : json) : result bool :=
  match x with
  | JDict d => Ok (match lookup k d with Some _ => true | None => false end)
  | JList l => Ok (existsb (is_str k) l)
  | JStr s => Ok (contains k s)
  | _ => Raise Exception
  end.

(** [x[k]] for a string [k]: only a dict can be indexed by a string. *)
Definition getitem (x : json) (k : string) : result json :=
  match x with
  | JDict d => match lookup k d with Some v => Ok v | None => Raise Exception end
  | _ => Raise Exception
  end.

(** [x[0]]: the first element of a list, the first character of a string;
    a dict decoded from JSON has no key [0]. *)
Definition getitem0 (x : json) : result json :=
  match x with
  | JList (v :: _) => Ok v
  | JStr (String c _) => Ok (JStr (String c EmptyString))
  | _ => Raise Exception
  end.

(** [x.get(k, default)]: only a dict has [get]. *)
Definition get (x : json) (k : string) (default : json) : result json :=
  match x with
  | JDict d => Ok (match lookup k d with Some v => v | None => default end)
  | _ => Raise Exception
  end.

(** [list(x.values())[0]] *)
Definition first_value (x : json) : result json :=
  match x with
  | JDict ((_, v) :: _) => Ok v
  | _ => Raise Exception
  end.

(** [for item in x]: the elements of a list, the keys of a dict, the
    characters of a string. *)
Definition iter (x : json) : result (list json) :=
  match x with
  | JList l => Ok l
  | JDict d => Ok (map (fun kv => JStr (fst kv)) d)
  | JStr s => Ok (map (fun c => JStr (String c EmptyString)) (list_ascii_of_string s))
  | _ => Raise Exception
  end.

(** [x.replace(old, new)]: only a string has [replace]. *)
Definition str_replace (x : json) (old new : string) : result json :=
  match x with
  | JStr s => Ok (JStr (replace old new s))
  | _ => Raise Exception
  end.

(** [x.split(sep)] *)
Definition str_split (x : json) (sep : string) : result (list string) :=
  match x with
  | JStr s => Ok (split sep s)
  | _ => Raise Exception
  end.

(** The subject of [re.findall(pattern, x)] must be a string. *)
Definition re_subject (x : json) : result string :=
  match x with
  | JStr s => Ok s
  | _ => Raise Exception
  end.

(** [l[:n]] for an integer [n]; a negative [n] counts from the end. *)
Definition slice_to {A : Type} (l : list A) (n : Z) : list A :=
  if (0 <=? n)%Z then firstn (Z.to_nat n) l
  else firstn (length l - Z.to_nat (- n)) l.

(** [dict.get(k, default)] on a dict of strings. *)
Definition dict_get (d : list (string * string)) (k default : string) : string :=
  match find (fun kv => String.eqb k (fst kv)) d with
  | Some kv => snd kv
  | None => default
  end.

End Py.

(* ================================================================= *)
(** ** The text summarizer *)

Module Summarizer.
Import PyStr Py.

Definition heritage_keywords : list string :=
  [ "built"; "constructed"; "established"; "founded"; "century";
    "ancient"; "historical"; "heritage"; "monument"; "temple";
    "fort"; "palace"; "architecture"; "dynasty"; "empire" ].

Definition cultural_keywords : list string :=
  [ "culture"; "tradition"; "festival"; "ritual"; "worship";
    "pilgrimage"; "sacred"; "religious"; "spiritual"; "art";
    "craft"; "music"; "dance"; "cuisine"; "custom" ].

(** [len(sentence) > 20 and any(keyword in sentence.lower() for keyword in
    keywords)] for a stripped [sentence]. *)
Definition keeps (keywords : list string) (sentence : string) : bool :=
  (20 <? String.length sentence)%nat
  && existsb (fun keyword => contains keyword (lower sentence)) keywords.

(** The loop shared by the two keyword extractors: each sentence is
    stripped, and kept with a period appended when [keeps] holds. *)
Fixpoint keyword_sentences (keywords : list string) (sentences : list string)
  : list string :=
  match sentences with
  | [] => []
  | sentence :: rest =>
      let sentence := strip sentence in
      if keeps keywords sentence
      then (sentence ++ ".")%string :: keyword_sentences keywords rest
      else keyword_sentences keywords rest
  end.

Definition extract_heritage_facts (text : json) : result (list string) :=
  if negb (truthy text) then Ok []
  else
    sentences <- str_split text ". " ;;
    let facts := keyword_sentences heritage_keywords sentences in
    Ok (firstn 5 facts).

Definition extract_cultural_info (text : json) : result (list string) :=
  if negb (truthy text) then Ok []
  else
    sentences <- str_split text ". " ;;
    let cultural_info := keyword_sentences cultural_keywords sentences in
    Ok (firstn 3 cultural_info).

(** An entry of the timeline: [{"period": ..., "type": ...}]. *)
Record timeline_entry : Type := mk_entry { period : string; type : string }.

Definition year_entry (year : string) : timeline_entry :=
  {| period := year; type := "year" |}.

Definition century_entry (m : string * string) : timeline_entry :=
  let (century, suffix) := m in
  {| period := (century ++ suffix ++ " century")%string; type := "century" |}.

(** [sorted(timeline, key=lambda x: x["period"])]: the stable sort by the
    period string. An entry is put before the first later entry whose
    period is not smaller. *)
Fixpoint insert_by_period (x : timeline_entry) (l : list timeline_entry)
  : list timeline_entry :=
  match l with
  | [] => [x]
  | y :: l' =>
      if le (period x) (period y) then x :: l
      else y :: insert_by_period x l'
  end.

Fixpoint sorted_by_period (l : list timeline_entry) : list timeline_entry :=
  match l with
  | [] => []
  | x :: l' => insert_by_period x (sorted_by_period l')
  end.

(** The order in which [for year in set(years)] visits the years is not
    fixed by the language: any enumeration without repeats of the elements
    of [years] can be it. *)
Definition set_iteration (years order : list string) : Prop :=
  NoDup order /\ forall y, In y order <-> In y years.

(** The timeline built when the set is visited in [order]. *)
Definition timeline_in_order (order : list string)
    (centuries : list (string * string)) : list timeline_entry :=
  firstn 5 (sorted_by_period
              (map year_entry order ++ map century_entry centuries)%list).

(** [extract_historical_dates(text)] returns [out]. *)
Definition historical_dates (text : json) (out : result (list timeline_entry))
  : Prop :=
  if negb (truthy text) then out = Ok []
  else
    match re_subject text with
    | Raise e => out = Raise e
    | Ok s =>
        let years := Re.findall Re.year_pattern s in
        let centuries := Re.findall Re.century_pattern s in
        exists order,
          set_iteration years order /\
          out = Ok (timeline_in_order order centuries)
    end.

(** One enumeration of [set(years)]: first occurrences, in text order. *)
Fixpoint set_of (years : list string) : list string :=
  match years with
  | [] => []
  | y :: rest =>
      y :: filter (fun z => negb (String.eqb z y)) (set_of rest)
  end.

(** [extract_historical_dates] with the set visited as [set_of] lists it;
    by [historical_dates_function] the choice does not show in the
    result. *)
Definition extract_historical_dates (text : json)
  : result (list timeline_entry) :=
  if negb (truthy text) then Ok []
  else
    s <- re_subject text ;;
    let years := Re.findall Re.year_pattern s in
    let centuries := Re.findall Re.century_pattern s in
    Ok (timeline_in_order (set_of years) centuries).

End Summarizer.

(* ================================================================= *)
(** ** The Wikimedia client *)

(** A value of the [params] dict of a request. *)
Inductive param : Type :=
| PStr (s : string)
| PInt (z : Z)
| PBool (b : bool)
| PCoord (lat lon : Q)      (* f"{lat}|{lon}" *)
| PJson (j : json).         (* a value taken out of an earlier response *)

Record request : Type := mk_request {
  url : string;
  params : list (string * param)
}.

(** [response = await session.get(url, params=params); response.json()] *)
Definition network : Type := request -> result json.

Definition COMMONS_API : string := "https://commons.wikimedia.org/w/api.php".

Definition LANGUAGE_CODES : list (string * string) :=
  [ ("en", "en"); ("hi", "hi"); ("ta", "ta"); ("te", "te"); ("bn", "bn") ].

Module WikimediaClient.
Import PyStr Py.

(** ["a" in data and "b" in data["a"]] *)
Definition has_path (data : json) (a b : string) : result bool :=
  has_a <- contains_key a data ;;
  if has_a then (inner <- getitem data a ;; contains_key b inner)
  else Ok false.

(** [data["a"]["b"]] *)
Definition get_path (data : json) (a b : string) : result json :=
  inner <- getitem data a ;; getitem inner b.

Definition search_wikipedia_request (query lang : string) (limit : Z)
  : request :=
  let wiki_lang := dict_get LANGUAGE_CODES lang "en" in
  let api_url := "https://" ++ wiki_lang ++ ".wikipedia.org/w/api.php" in
  {| url := api_url;
     params := [ ("action", PStr "query");
                 ("format", PStr "json");
                 ("list", PStr "search");
                 ("srsearch", PStr (query ++ " India"));
                 ("srlimit", PInt limit);
                 ("srprop", PStr "snippet|titlesnippet|size") ] |}.

Definition get_article_content_request (title lang : string) : request :=
  let wiki_lang := dict_get LANGUAGE_CODES lang "en" in
  let api_url := "https://" ++ wiki_lang ++ ".wikipedia.org/w/api.php" in
  {| url := api_url;
     params := [ ("action", PStr "query");
                 ("format", PStr "json");
                 ("titles", PStr title);
                 ("prop", PStr "extracts|pageimages|coordinates|categories");
                 ("exintro", PBool true);
                 ("explaintext", PBool true);
                 ("exsectionformat", PStr "plain");
                 ("piprop", PStr "original");
                 ("coprop", PStr "lat|lon");
                 ("cllimit", PInt 10) ] |}.

Definition get_commons_images_request (search_term : string) (limit : Z)
  : request :=
  {| url := COMMONS_API;
     params := [ ("action", PStr "query");
                 ("format", PStr "json");
                 ("list", PStr "search");
                 ("srnamespace", PInt 6);
                 ("srsearch", PStr (search_term ++ " India"));
                 ("srlimit", PInt limit);
                 ("srprop", PStr "snippet|titlesnippet") ] |}.

(** The second-stage lookup of one hit, for the hit's [item["title"]]. *)
Definition image_info_request (title : json) : request :=
  {| url := COMMONS_API;
     params := [ ("action", PStr "query");
                 ("format", PStr "json");
                 ("titles", PJson title);
                 ("prop", PStr "imageinfo");
                 ("iiprop", PStr "url|size|mime|extmetadata");
                 ("iiurlwidth", PInt 400) ] |}.

Definition get_wikivoyage_content_request (location lang : string)
  : request :=
  let wiki_lang := dict_get LANGUAGE_CODES lang "en" in
  let api_url := "https://" ++ wiki_lang ++ ".wikivoyage.org/w/api.php" in
  {| url := api_url;
     params := [ ("action", PStr "query");
                 ("format", PStr "json");
                 ("titles", PStr location);
                 ("prop", PStr "extracts|pageimages");
                 ("exintro", PBool true);
                 ("explaintext", PBool true);
                 ("exsectionformat", PStr "plain");
                 ("piprop", PStr "original") ] |}.

(** The dict appended to [images] for a hit whose lookup gave [img_info]. *)
Definition image_entry (item img_info : json) : result json :=
  title <- getitem item "title" ;;
  title <- str_replace title "File:" "" ;;
  url_default <- get img_info "url" JNull ;;
  url <- get img_info "thumburl" url_default ;;
  full_url <- get img_info "url" JNull ;;
  width_default <- get img_info "width" JNull ;;
  width <- get img_info "thumbwidth" width_default ;;
  height_default <- get img_info "height" JNull ;;
  height <- get img_info "thumbheight" height_default ;;
  extmetadata <- get img_info "extmetadata" (JDict []) ;;
  image_description <- get extmetadata "ImageDescription" (JDict []) ;;
  description <- get image_description "value" (JStr "") ;;
  Ok (JDict [ ("title", title);
              ("url", url);
              ("full_url", full_url);
              ("width", width);
              ("height", height);
              ("description", description) ]).

Section Client.

Variable net : network.

Definition search_wikipedia (query lang : string) (limit : Z) : result json :=
  try_except
    (data <- net (search_wikipedia_request query lang limit) ;;
     found <- has_path data "query" "search" ;;
     if found then get_path data "query" "search"
     else Ok (JList []))
    (JList []).

Definition get_article_content (title lang : string) : result json :=
  try_except
    (data <- net (get_article_content_request title lang) ;;
     found <- has_path data "query" "pages" ;;
     if found then
       pages <- get_path data "query" "pages" ;;
       page_data <- first_value pages ;;
       Ok page_data
     else Ok (JDict []))
    (JDict []).

(** The body of the loop over the hits: [Some] of the dict to append, or
    [None] when the lookup's answer holds no image information. *)
Definition image_of_hit (item : json) : result (option json) :=
  title <- getitem item "title" ;;
  img_data <- net (image_info_request title) ;;
  found <- has_path img_data "query" "pages" ;;
  if found then
    pages <- get_path img_data "query" "pages" ;;
    page <- first_value pages ;;
    has_info <- contains_key "imageinfo" page ;;
    if has_info then
      infos <- getitem page "imageinfo" ;;
      img_info <- getitem0 infos ;;
      entry <- image_entry item img_info ;;
      Ok (Some entry)
    else Ok None
  else Ok None.

(** [for item in data["query"]["search"]: ...], from the [images] so far. *)
Fixpoint images_loop (items : list json) (images : list json)
  : result (list json) :=
  match items with
  | [] => Ok images
  | item :: rest =>
      match image_of_hit item with
      | Raise e => Raise e
      | Ok (Some entry) => images_loop rest (images ++ [entry])%list
      | Ok None => images_loop rest images
      end
  end.

Definition get_commons_images (search_term : string) (limit : Z)
  : result (list json) :=
  try_except
    (data <- net (get_commons_images_request search_term limit) ;;
     found <- has_path data "query" "search" ;;
     if found then
       hits <- get_path data "query" "search" ;;
       items <- iter hits ;;
       images <- images_loop items [] ;;
       Ok (slice_to images limit)
     else Ok [])
    [].

Definition get_wikivoyage_content (location lang : string) : result json :=
  try_except
    (data <- net (get_wikivoyage_content_request location lang) ;;
     found <- has_path data "query" "pages" ;;
     if found then
       pages <- get_path data "query" "pages" ;;
       page_data <- first_value pages ;;
       Ok page_data
     else Ok (JDict []))
    (JDict []).

End Client.

End WikimediaClient.

(* ================================================================= *)
(** ** The endpoints *)

Module Api.
Import PyStr Py Summarizer WikimediaClient.

(** [[f(x) for x in xs]] where [f] may raise. *)
Fixpoint map_result {A B : Type} (f : A -> result B) (xs : list A)
  : result (list B) :=
  match xs with
  | [] => Ok []
  | x :: rest =>
      y <- f x ;;
      ys <- map_result f rest ;;
      Ok (y :: ys)
  end.

(** [len(l)] as a JSON number. *)
Definition len {A : Type} (l : list A) : json :=
  JNum (inject_Z (Z.of_nat (length l))).

(** What a value awaited through [asyncio.gather(..., return_exceptions=
    True)] is replaced by when it is an exception. *)
Definition unless_exception {A : Type} (r : result A) (default : A) : A :=
  match r with
  | Ok a => a
  | Raise _ => default
  end.

Definition strings (l : list string) : json := JList (map JStr l).

Definition timeline_json (l : list timeline_entry) : json :=
  JList (map (fun e => JDict [ ("period", JStr (period e));
                               ("type", JStr (type e)) ]) l).

(** One entry of [locations] in [search_locations]. *)
Definition location_entry (wiki_result : json) : result json :=
  title <- getitem wiki_result "title" ;;
  id <- str_replace title " " "_" ;;
  title <- getitem wiki_result "title" ;;
  snippet <- get wiki_result "snippet" (JStr "") ;;
  Ok (JDict [ ("id", id);
              ("title", title);
              ("snippet", snippet);
              ("source", JStr "wikipedia") ]).

(** [get_heritage_content] from the three gathered values on. *)
Definition heritage_data (location_id location_title lang : string)
    (wiki_content : result json) (images : result (list json))
    (wikivoyage_content : result json) : result json :=
  let wiki_content := unless_exception wiki_content (JDict []) in
  let images := unless_exception images [] in
  let wikivoyage_content := unless_exception wikivoyage_content (JDict []) in
  extract <- get wiki_content "extract" (JStr "") ;;
  coordinates <- get wiki_content "coordinates" (JList []) ;;
  cats <- get wiki_content "categories" (JList []) ;;
  cats <- iter cats ;;
  categories <- map_result (fun cat => get cat "title" (JStr "")) cats ;;
  page_image <- get wiki_content "pageimage" (JStr "") ;;
  travel_extract <- get wikivoyage_content "extract" (JStr "") ;;
  travel_image <- get wikivoyage_content "pageimage" (JStr "") ;;
  text <- get wiki_content "extract" (JStr "") ;;
  heritage_facts <- extract_heritage_facts text ;;
  text <- get wiki_content "extract" (JStr "") ;;
  cultural_significance <- extract_cultural_info text ;;
  text <- get wiki_content "extract" (JStr "") ;;
  historical_timeline <- extract_historical_dates text ;;
  Ok (JDict
        [ ("location_id", JStr location_id);
          ("title", JStr location_title);
          ("language", JStr lang);
          ("wikipedia",
            JDict [ ("extract", extract);
                    ("coordinates", coordinates);
                    ("categories", JList categories);
                    ("page_image", page_image) ]);
          ("travel_info",
            JDict [ ("extract", travel_extract);
                    ("page_image", travel_image) ]);
          ("images", JList images);
          ("summary",
            JDict [ ("heritage_facts", strings heritage_facts);
                    ("cultural_significance", strings cultural_significance);
                    ("historical_timeline",
                      timeline_json historical_timeline) ]) ]).

(** The request of [get_nearby_heritage]. *)
Definition get_nearby_heritage_request (lat lon : Q) (radius : Z)
    (lang : string) : request :=
  let params := [ ("action", PStr "query");
                  ("format", PStr "json");
                  ("list", PStr "geosearch");
                  ("gscoord", PCoord lat lon);
                  ("gsradius", PInt (radius * 1000));
                  ("gslimit", PInt 20);
                  ("gsnamespace", PInt 0) ] in
  let wiki_lang := dict_get LANGUAGE_CODES lang "en" in
  let api_url := "https://" ++ wiki_lang ++ ".wikipedia.org/w/api.php" in
  {| url := api_url; params := params |}.

(** One entry of [nearby_places]. *)
Definition place_entry (place : json) : result json :=
  title <- getitem place "title" ;;
  id <- str_replace title " " "_" ;;
  title <- getitem place "title" ;;
  distance <- get place "dist" (JNum 0) ;;
  lat <- get place "lat" (JNum 0) ;;
  lon <- get place "lon" (JNum 0) ;;
  Ok (JDict [ ("id", id);
              ("title", title);
              ("distance", distance);
              ("coordinates", JDict [ ("lat", lat); ("lon", lon) ]) ]).

Section Endpoints.

Variable net : network.

Definition search_locations (query lang : string) (limit : Z) : result json :=
  try_reraise
    (wiki_results <- search_wikipedia net query lang limit ;;
     results <- iter wiki_results ;;
     locations <- map_result location_entry results ;;
     Ok (JDict [ ("query", JStr query);
                 ("language", JStr lang);
                 ("total", len locations);
                 ("locations", JList locations) ]))
    (HTTPException 500 "Search service unavailable").

Definition get_heritage_content (location_id lang : string) : result json :=
  try_reraise
    (let location_title := replace "_" " " location_id in
     heritage_data location_id location_title lang
       (get_article_content net location_title lang)
       (get_commons_images net location_title 10)
       (get_wikivoyage_content net location_title lang))
    (HTTPException 500 "Heritage content service unavailable").

Definition get_nearby_heritage (lat lon : Q) (radius : Z) (lang : string)
  : result json :=
  try_reraise
    (data <- net (get_nearby_heritage_request lat lon radius lang) ;;
     found <- has_path data "query" "geosearch" ;;
     nearby_places <-
       (if found then
          places <- get_path data "query" "geosearch" ;;
          places <- iter places ;;
          map_result place_entry places
        else Ok []) ;;
     Ok (JDict [ ("center", JDict [ ("lat", JNum lat); ("lon", JNum lon) ]);
                 ("radius_km", JNum (inject_Z radius));
                 ("total", len nearby_places);
                 ("places", JList nearby_places) ]))
    (HTTPException 500 "Nearby search service unavailable").

End Endpoints.

End Api.

(* ================================================================= *)
(** ** Notions used in the statements *)

Module Notions.
Import PyStr.

(** [s[k:]] *)
Fixpoint drop (k : nat) (s : string) : string :=
  match k, s with
  | S k', String _ r => drop k' r
  | _, _ => s
  end.

(** A string that [lstrip] leaves alone: empty, or starting with a
    character that is no white space. *)
Definition starts_clean (s : string) : Prop :=
  match s with
  | EmptyString => True
  | String c _ => is_space c = false
  end.

(** A map over the characters of a string. *)
Fixpoint map_chars (f : ascii -> ascii) (s : string) : string :=
  match s with
  | EmptyString => EmptyString
  | String c r => String (f c) (map_chars f r)
  end.

(** [a] is not after [b] in the order of [sorted]: by period strings. *)
Definition period_le (a b : Summarizer.timeline_entry) : Prop :=
  le (Summarizer.period a) (Summarizer.period b) = true.

(** What an accepted sentence looks like: [r] is the stripped [sentence]
    with a period appended, the stripped sentence has more than 20
    characters, and its lower-case form holds one of the [keywords]. *)
Definition kept_sentence (keywords : list string) (sentence r : string)
  : Prop :=
  r = strip sentence ++ "." /\
  20 < String.length (strip sentence) /\
  exists keyword a b,
    In keyword keywords /\ lower (strip sentence) = a ++ keyword ++ b.

(** The strings the keyword extractors are made of, before truncation:
    the accepted sentences of the text, in the order of the text. *)
Definition accepted (keywords : list string) (text : string) : list string :=
  map (fun sentence => strip sentence ++ ".")
      (filter (fun sentence => Summarizer.keeps keywords (strip sentence))
              (split ". " text)).

(** The character before the position that follows [pre]: the last
    character of [pre], or [prev] when [pre] is empty. *)
Fixpoint char_before (prev : option ascii) (pre : string) : option ascii :=
  match pre with
  | EmptyString => prev
  | String c r => char_before (Some c) r
  end.

(** The groups of the matches of a pattern at every position of the text,
    from left to right, overlapping or not. *)
Fixpoint occurrences_from {A : Type}
    (m : option ascii -> string -> option (A * nat))
    (prev : option ascii) (s : string) : list A :=
  match s with
  | EmptyString => []
  | String c r =>
      match m prev s with
      | Some (g, _) => g :: occurrences_from m (Some c) r
      | None => occurrences_from m (Some c) r
      end
  end.

Definition occurrences {A : Type}
    (m : option ascii -> string -> option (A * nat)) (text : string)
  : list A := occurrences_from m None text.

(** The pattern [m] has no match in the first [k] positions of [s]. *)
Fixpoint quiet {A : Type}
    (m : option ascii -> string -> option (A * nat))
    (k : nat) (prev : option ascii) (s : string) : Prop :=
  match k, s with
  | S k', String c r => m prev s = None /\ quiet m k' (Some c) r
  | _, _ => True
  end.

(** The number a decimal digit stands for. *)
Definition digit_value (c : ascii) : option nat :=
  if is_digit c then Some (N.to_nat (code c) - 48) else None.

(** The number a string of four decimal digits stands for. *)
Definition year_value (y : string) : option nat :=
  match y with
  | String a (String b (String c (String d EmptyString))) =>
      match digit_value a, digit_value b, digit_value c, digit_value d with
      | Some a, Some b, Some c, Some d =>
          Some (1000 * a + 100 * b + 10 * c + d)
      | _, _, _, _ => None
      end
  | _ => None
  end.

(** [y] is a year of the ranges 1000-1999 and 2000-2029, written with
    four digits. *)
Definition year_in_range (y : string) : Prop :=
  exists n, year_value y = Some n /\
            (1000 <= n <= 1999 \/ 2000 <= n <= 2029).


Fixpoint all_chars (p : ascii -> bool) (s : string) : bool :=
  match s with
  | EmptyString => true
  | String c r => p c && all_chars p r
  end.


Definition not_digit (c : ascii) : bool := negb (is_digit c).



(** The composite record of [get_heritage_content], field by field. *)
Definition composite_record (location_id title lang : string)
    (extract coordinates : json) (categories : list json)
    (page_image travel_extract travel_image : json) (images : list json)
    (facts notes : list string) (timeline : list Summarizer.timeline_entry)
  : json :=
  JDict
    [ ("location_id", JStr location_id);
      ("title", JStr title);
      ("language", JStr lang);
      ("wikipedia",
        JDict [ ("extract", extract);
                ("coordinates", coordinates);
                ("categories", JList categories);
                ("page_image", page_image) ]);
      ("travel_info",
        JDict [ ("extract", travel_extract);
                ("page_image", travel_image) ]);
      ("images", JList images);
      ("summary",
        JDict [ ("heritage_facts", Api.strings facts);
                ("cultural_significance", Api.strings notes);
                ("historical_timeline", Api.timeline_json timeline) ]) ].

(** The composite record when no source has anything to give. *)
Definition empty_record (location_id title lang : string) : json :=
  composite_record location_id title lang
    (JStr "") (JList []) [] (JStr "") (JStr "") (JStr "") [] [] [] [].

(** A media asset with its six fields. *)
Definition media_asset (title url full_url width height description : json)
  : json :=
  JDict [ ("title", title);
          ("url", url);
          ("full_url", full_url);
          ("width", width);
          ("height", height);
          ("description", description) ].

(** The entries of the hits whose lookup answered, in the order of the
    hits; a hit whose answer holds no image information gives none. *)
Definition resolved (net : network) (items : list json) : list json :=
  flat_map (fun item =>
              match WikimediaClient.image_of_hit net item with
              | Ok (Some entry) => [entry]
              | _ => []
              end) items.

(** The record [get_nearby_heritage] returns for the places [places]. *)
Definition nearby_record (lat lon : Q) (radius : Z) (places : list json)
  : json :=
  JDict [ ("center", JDict [ ("lat", JNum lat); ("lon", JNum lon) ]);
          ("radius_km", JNum (inject_Z radius));
          ("total", Api.len places);
          ("places", JList places) ].

(** The language whose host a request for [lang] goes to. *)
Definition host_language (lang : string) : string :=
  if existsb (String.eqb lang) ["en"; "hi"; "ta"; "te"; "bn"]
  then lang else "en".

End Notions.

(* ================================================================= *)
(** ** Upstream behaviours used as examples *)

Module Scenario.
Import Py.

(** The value of the parameter [k] of a request. *)
Fixpoint param_of (k : string) (ps : list (string * param)) : option param :=
  match ps with
  | [] => None
  | (k', v) :: ps' => if String.eqb k k' then Some v else param_of k ps'
  end.

(** Every request faults. *)
Definition unreachable : network := fun _ => Raise Exception.

Definition hit (title : string) : json := JDict [ ("title", JStr title) ].

Definition five_hits : json :=
  JDict [ ("query",
            JDict [ ("search",
                      JList [ hit "File:A.jpg"; hit "File:B.jpg";
                              hit "File:C.jpg"; hit "File:D.jpg";
                              hit "File:E.jpg" ]) ]) ].

(** The answer to a lookup that knows the image. *)
Definition image_info (title : string) : json :=
  JDict [ ("query",
            JDict [ ("pages",
                      JDict [ ("1",
                                JDict [ ("title", JStr title);
                                        ("imageinfo",
                                          JList [ JDict [ ("url", JStr title);
                                                          ("width", JNum 400) ] ]) ]) ]) ]) ].

(** The answer to a lookup that does not: a page without [imageinfo]. *)
Definition no_image_info (title : string) : json :=
  JDict [ ("query",
            JDict [ ("pages",
                      JDict [ ("-1", JDict [ ("title", JStr title) ]) ]) ]) ].

Definition is_b_or_d (title : string) : bool :=
  String.eqb title "File:B.jpg" || String.eqb title "File:D.jpg".

(** The media search finds five files; the lookups of the second and the
    fourth fault (a timeout, say), the three others answer. *)
Definition two_lookups_fault : network := fun r =>
  match param_of "list" (params r), param_of "titles" (params r) with
  | Some (PStr "search"), _ => Ok five_hits
  | _, Some (PJson (JStr title)) =>
      if is_b_or_d title then Raise Exception else Ok (image_info title)
  | _, _ => Raise Exception
  end.

(** The same search; the lookups of the second and the fourth answer
    without image information. *)
Definition two_lookups_empty : network := fun r =>
  match param_of "list" (params r), param_of "titles" (params r) with
  | Some (PStr "search"), _ => Ok five_hits
  | _, Some (PJson (JStr title)) =>
      if is_b_or_d title then Ok (no_image_info title)
      else Ok (image_info title)
  | _, _ => Raise Exception
  end.

Definition twelve_hits : json :=
  JDict [ ("query",
            JDict [ ("search", JList (repeat (hit "File:A.jpg") 12)) ]) ].

(** The media search finds twelve files and every lookup answers; the
    article services fault. *)
Definition twelve_images : network := fun r =>
  match param_of "list" (params r), param_of "titles" (params r) with
  | Some (PStr "search"), _ => Ok twelve_hits
  | _, Some (PJson (JStr title)) => Ok (image_info title)
  | _, _ => Raise Exception
  end.

(** The article service answers with a page whose extract is a number. *)
Definition numeric_extract : network := fun r =>
  match param_of "prop" (params r) with
  | Some (PStr "extracts|pageimages|coordinates|categories") =>
      Ok (JDict [ ("query",
                    JDict [ ("pages",
                              JDict [ ("1",
                                        JDict [ ("extract", JNum 5) ]) ]) ]) ])
  | _ => Raise Exception
  end.

(** The geosearch answers with two places, the farther one first. *)
Definition two_places : network := fun _ =>
  Ok (JDict [ ("query",
                JDict [ ("geosearch",
                          JList [ JDict [ ("title", JStr "Red Fort");
                                          ("dist", JNum 900) ];
                                  JDict [ ("title", JStr "Jama Masjid");
                                          ("dist", JNum 300) ] ]) ]) ]).

End Scenario.

(* ================================================================= *)
(** ** The records of the search and geosearch endpoints *)

Module Shapes.
Import PyStr Py.

(** [d.get(k, default)] on the bindings of a dict. *)
Definition or_default (d : list (string * json)) (k : string)
    (default : json) : json :=
  match lookup k d with
  | Some v => v
  | None => default
  end.

(** An entry of [locations] in the record of [search_locations]. *)
Definition location (id title snippet : json) : json :=
  JDict [ ("id", id);
          ("title", title);
          ("snippet", snippet);
          ("source", JStr "wikipedia") ].

(** The record of [search_locations]. *)
Definition search_record (query lang : string) (locations : list json)
  : json :=
  JDict [ ("query", JStr query);
          ("language", JStr lang);
          ("total", Api.len locations);
          ("locations", JList locations) ].

(** An entry of [places] in the record of [get_nearby_heritage]. *)
Definition place (id title distance lat lon : json) : json :=
  JDict [ ("id", id);
          ("title", title);
          ("distance", distance);
          ("coordinates", JDict [ ("lat", lat); ("lon", lon) ]) ].

(** The entry [search_locations] makes of the hit [item]: the hit is a
    dict with a string for title; the id is the title with underscores for
    spaces, and a missing snippet is the empty string. *)
Definition location_of (item entry : json) : Prop :=
  exists d title,
    item = JDict d /\ lookup "title" d = Some (JStr title) /\
    entry = location (JStr (replace " " "_" title)) (JStr title)
                     (or_default d "snippet" (JStr "")).

(** The entry [get_nearby_heritage] makes of the place [item]: missing
    distance and coordinates are 0. *)
Definition place_of (item entry : json) : Prop :=
  exists d title,
    item = JDict d /\ lookup "title" d = Some (JStr title) /\
    entry = place (JStr (replace " " "_" title)) (JStr title)
                  (or_default d "dist" (JNum 0))
                  (or_default d "lat" (JNum 0))
                  (or_default d "lon" (JNum 0)).

(** [x] is no string. *)
Definition not_str (x : json) : Prop := forall s, x <> JStr s.

(** [x] is no dict. *)
Definition not_dict (x : json) : Prop := forall d, x <> JDict d.

End Shapes.

(* ================================================================= *)
(** ** More upstream behaviours used as examples *)

Module Upstream.
Import Py Scenario.

(** The article search answers with two hits, whatever limit it is asked
    for; the second hit has no snippet. *)
Definition two_hits : network := fun _ =>
  Ok (JDict [ ("query",
                JDict [ ("search",
                          JList [ JDict [ ("title", JStr "Red Fort");
                                          ("snippet", JStr "A fort in Delhi") ];
                                  JDict [ ("title", JStr "Agra Fort") ] ]) ]) ]).

(** The article search answers with two hits, the second without title. *)
Definition untitled_hit : network := fun _ =>
  Ok (JDict [ ("query",
                JDict [ ("search",
                          JList [ JDict [ ("title", JStr "Red Fort") ];
                                  JDict [ ("snippet", JStr "no title") ] ]) ]) ]).

(** The geosearch answers with two places, the second without title. *)
Definition untitled_place : network := fun _ =>
  Ok (JDict [ ("query",
                JDict [ ("geosearch",
                          JList [ JDict [ ("title", JStr "Red Fort") ];
                                  JDict [ ("dist", JNum 300) ] ]) ]) ]).

(** Only the travel guide answers: the article service and the media
    search fault. *)
Definition only_travel : network := fun r =>
  match param_of "prop" (params r) with
  | Some (PStr "extracts|pageimages") =>
      Ok (JDict [ ("query",
                    JDict [ ("pages",
                              JDict [ ("7",
                                        JDict [ ("extract",
                                                  JStr "Agra is a city on the Yamuna.") ]) ]) ]) ])
  | _ => Raise Exception
  end.

(** The article service answers with a page that is a list. *)
Definition page_is_list : network := fun r =>
  match param_of "prop" (params r) with
  | Some (PStr "extracts|pageimages|coordinates|categories") =>
      Ok (JDict [ ("query",
                    JDict [ ("pages", JDict [ ("1", JList []) ]) ]) ])
  | _ => Raise Exception
  end.

End Upstream.

(* ================================================================= *)
(** ** Tactics *)

(** Takes a successful [bind] chain apart, one step at a time. *)
Ltac bind_inv H :=
  repeat match type of H with
         | bind ?r _ = Ok _ =>
             let E := fresh "E" in
             destruct r eqn:E; cbn [bind] in H; [| discriminate H]
         end.

(** Follows a [bind] chain in the goal through each of its outcomes. *)
Ltac bind_cases :=
  repeat (cbn [bind];
          match goal with
          | |- bind ?r _ = _ -> _ => destruct r as [? | ?] eqn:?
          | |- (if ?b then _ else _) = _ -> _ => destruct b
          end);
  cbn [bind]; try discriminate.

(* ================================================================= *)
(** * Properties *)

(** ** Strings *)

Section StringFacts.
Import PyStr Notions.

Lemma length_app (s t : string) :
  String.length (s ++ t) = String.length s + String.length t.
Proof. induction s as [|c s IH]; simpl; [reflexivity | now rewrite IH]. Qed.

Lemma app_empty_r (s : string) : s ++ "" = s.
Proof. induction s as [|c s IH]; simpl; [reflexivity | now rewrite IH]. Qed.

Lemma app_assoc_str (s t u : string) : (s ++ t) ++ u = s ++ t ++ u.
Proof. induction s as [|c s IH]; simpl; [reflexivity | now rewrite IH]. Qed.


Lemma lower_app (s t : string) : lower (s ++ t) = lower s ++ lower t.
Proof. induction s as [|c s IH]; simpl; [reflexivity | now rewrite IH]. Qed.

(** [prefix] and [contains] say what they should. *)
Lemma prefix_spec (k s : string) :
  prefix k s = true <-> exists b, s = k ++ b.
Proof.
  revert s; induction k as [|c k IH]; intros s.
  - split; [intros _; now exists s | intros _; now destruct s].
  - destruct s as [|d s]; simpl.
    + split; [discriminate | intros [b Hb]; discriminate].
    + destruct (ascii_dec c d) as [->|Hcd].
      * rewrite IH. split; intros [b Hb]; exists b;
          [now rewrite Hb | now injection Hb].
      * split; [discriminate | intros [b Hb]; injection Hb; congruence].
Qed.

Lemma contains_spec (k s : string) :
  contains k s = true <-> exists a b, s = a ++ k ++ b.
Proof.
  induction s as [|c s IH].
  - cbn [contains]. rewrite orb_false_r, prefix_spec. split.
    + intros [b Hb]. now exists "", b.
    + intros [a [b Hab]]. destruct a; [now exists b | discriminate].
  - cbn [contains]. rewrite orb_true_iff, prefix_spec, IH. split.
    + intros [[b Hb] | [a [b Hab]]].
      * now exists "", b.
      * exists (String c a), b. now rewrite Hab.
    + intros [a [b Hab]]. destruct a as [|d a].
      * left. now exists b.
      * right. exists a, b. simpl in Hab. now injection Hab.
Qed.

Lemma contains_app_r (k s t : string) :
  contains k s = true -> contains k (s ++ t) = true.
Proof.
  rewrite !contains_spec. intros [a [b ->]]. exists a, (b ++ t).
  now rewrite !app_assoc_str.
Qed.

Lemma lstrip_starts_clean (s : string) : starts_clean (lstrip s).
Proof.
  induction s as [|c s IH]; simpl; [exact I |].
  destruct (is_space c) eqn:Hc; [exact IH | exact Hc].
Qed.

Lemma starts_clean_lstrip (s : string) : starts_clean s -> lstrip s = s.
Proof. destruct s as [|c s]; simpl; [reflexivity | now intros ->]. Qed.

Lemma rstrip_starts_clean (s : string) :
  starts_clean s -> starts_clean (rstrip s).
Proof.
  destruct s as [|c s]; simpl; [exact (fun H => H) |].
  intros Hc. destruct (rstrip s); [now rewrite Hc | exact Hc].
Qed.

Lemma rstrip_cons (c : ascii) (r : string) :
  rstrip (String c r)
  = match rstrip r with
    | EmptyString => if is_space c then EmptyString else String c EmptyString
    | r' => String c r'
    end.
Proof. reflexivity. Qed.

Lemma rstrip_idempotent (s : string) : rstrip (rstrip s) = rstrip s.
Proof.
  induction s as [|c s IH]; [reflexivity |].
  rewrite rstrip_cons. destruct (rstrip s) as [|d r] eqn:Hr.
  - destruct (is_space c) eqn:Hc; [reflexivity |].
    rewrite rstrip_cons. simpl. now rewrite Hc.
  - rewrite rstrip_cons, IH. reflexivity.
Qed.

Lemma rstrip_app (s t : string) :
  rstrip t <> "" -> rstrip (s ++ t) = s ++ rstrip t.
Proof.
  intros Ht. induction s as [|c s IH]; simpl; [reflexivity |].
  rewrite IH. destruct (s ++ rstrip t) as [|d r] eqn:E; [|reflexivity].
  destruct s; simpl in E; [contradiction | discriminate].
Qed.

(** [strip] gives a string that [strip] leaves alone. *)
Lemma strip_idempotent (s : string) : strip (strip s) = strip s.
Proof.
  unfold strip.
  rewrite (starts_clean_lstrip (rstrip (lstrip s))).
  - apply rstrip_idempotent.
  - apply rstrip_starts_clean, lstrip_starts_clean.
Qed.

(** A stripped sentence with its period appended is still stripped. *)
Lemma strip_with_period (s : string) : strip (strip s ++ ".") = strip s ++ ".".
Proof.
  assert (Hc : starts_clean (strip s))
    by (apply rstrip_starts_clean, lstrip_starts_clean).
  unfold strip at 1. rewrite starts_clean_lstrip.
  - now rewrite rstrip_app.
  - destruct (strip s); simpl; [reflexivity | exact Hc].
Qed.

Lemma prefix_char (a c : ascii) (s : string) :
  prefix (String a "") (String c s) = Ascii.eqb a c.
Proof.
  cbn [prefix]. destruct (ascii_dec a c) as [->|Hac].
  - rewrite Ascii.eqb_refl. now destruct s.
  - apply Ascii.eqb_neq in Hac. now rewrite Hac.
Qed.

Lemma replace_char (a b : ascii) (s : string) :
  replace (String a "") (String b "") s
  = map_chars (fun c => if Ascii.eqb a c then b else c) s.
Proof.
  unfold replace. induction s as [|c s IH]; [reflexivity |].
  cbn [replace_go map_chars]. rewrite prefix_char.
  destruct (Ascii.eqb a c); cbn; now rewrite IH.
Qed.

Lemma contains_char (a : ascii) (s : string) :
  contains (String a "") s = false <->
  forall c r t, s = r ++ String c t -> c <> a.
Proof.
  split.
  - intros H c r t -> ->.
    assert (contains (String a "") (r ++ String a t) = true); [|congruence].
    apply contains_spec. now exists r, t.
  - intros H. destruct (contains (String a "") s) eqn:E; [|reflexivity].
    apply contains_spec in E. destruct E as [r [t ->]].
    exfalso. now apply (H a r t).
Qed.

Lemma contains_char_cons (a c : ascii) (s : string) :
  contains (String a "") (String c s)
  = Ascii.eqb a c || contains (String a "") s.
Proof. cbn [contains]. now rewrite prefix_char. Qed.

(** The slug of a title without underscores decodes to the title. *)
Lemma unslug_slug (title : string) :
  contains "_" title = false ->
  replace "_" " " (replace " " "_" title) = title.
Proof.
  rewrite !replace_char. induction title as [|c s IH]; [reflexivity |].
  rewrite contains_char_cons, orb_false_iff. intros [Hc Hs].
  cbn [map_chars]. rewrite (IH Hs). f_equal.
  destruct (Ascii.eqb " " c) eqn:E.
  - apply Ascii.eqb_eq in E. now subst c.
  - now rewrite Hc.
Qed.

(** And the slug of a title with an underscore never does. *)
Lemma unslug_slug_lossy (title : string) :
  contains "_" title = true ->
  replace "_" " " (replace " " "_" title) <> title.
Proof.
  rewrite !replace_char. induction title as [|c s IH]; [discriminate |].
  rewrite contains_char_cons, orb_true_iff. cbn [map_chars].
  intros [Hc | Hs] E; injection E as E1 E2.
  - apply Ascii.eqb_eq in Hc. subst c. discriminate E1.
  - now apply IH.
Qed.

Lemma drop_app (s t : string) : drop (String.length s) (s ++ t) = t.
Proof. induction s as [|c s IH]; [now destruct t | exact IH]. Qed.

Lemma split_go_not_nil (sep : string) (k : nat) (s : string) :
  split_go sep k s <> [].
Proof.
  revert k. induction s as [|c r IH]; intros k; cbn [split_go];
    [discriminate |].
  destruct k as [|k]; [| apply IH].
  destruct (prefix sep (String c r)); [discriminate |].
  destruct (split_go sep 0 r); discriminate.
Qed.

Lemma concat_cons (sep x : string) (l : list string) :
  l <> [] -> String.concat sep (x :: l) = x ++ sep ++ String.concat sep l.
Proof. destruct l; [congruence | reflexivity]. Qed.

Lemma concat_cons_char (sep : string) (c : ascii) (h : string)
    (t : list string) :
  String.concat sep (String c h :: t) = String c (String.concat sep (h :: t)).
Proof. destruct t; reflexivity. Qed.

(** The pieces of [split], joined by the separator, are the text. *)
Lemma split_go_join (sep : string) :
  sep <> "" ->
  forall s k, k <= String.length s ->
    String.concat sep (split_go sep k s) = drop k s.
Proof.
  intros Hsep. induction s as [|c r IH]; intros k Hk.
  - destruct k; [reflexivity | simpl in Hk; lia].
  - cbn [split_go]. destruct k as [|k].
    + destruct (prefix sep (String c r)) eqn:P.
      * apply prefix_spec in P. destruct P as [b Hb].
        destruct sep as [|d sep']; [contradiction |].
        cbn [append] in Hb. injection Hb as <- ->.
        rewrite concat_cons by apply split_go_not_nil.
        cbn [String.length Nat.sub]. rewrite Nat.sub_0_r.
        rewrite IH by (rewrite length_app; lia).
        rewrite drop_app. reflexivity.
      * pose proof (split_go_not_nil sep 0 r) as N.
        specialize (IH 0 (Nat.le_0_l _)).
        destruct (split_go sep 0 r) as [|h t]; [contradiction |].
        rewrite concat_cons_char, IH. reflexivity.
    + cbn [drop]. apply IH. simpl in Hk. lia.
Qed.

Lemma split_join (sep s : string) :
  sep <> "" -> String.concat sep (split sep s) = s.
Proof.
  intros H. unfold split. rewrite (split_go_join sep H s 0 (Nat.le_0_l _)).
  now destruct s.
Qed.

End StringFacts.

(** ** The keyword extractors *)

Section KeywordFacts.
Import PyStr Py Summarizer Notions.

Lemma keyword_sentences_accepted (keywords : list string) (l : list string) :
  keyword_sentences keywords l
  = map (fun sentence => strip sentence ++ ".")
        (filter (fun sentence => keeps keywords (strip sentence)) l).
Proof.
  induction l as [|x l IH]; [reflexivity |].
  cbn [keyword_sentences filter].
  destruct (keeps keywords (strip x)); cbn [map]; now rewrite IH.
Qed.

Lemma keeps_spec (keywords : list string) (sentence : string) :
  keeps keywords sentence = true <->
  20 < String.length sentence /\
  exists keyword a b,
    In keyword keywords /\ lower sentence = a ++ keyword ++ b.
Proof.
  unfold keeps. rewrite andb_true_iff, Nat.ltb_lt, existsb_exists.
  split; intros [Hlen H]; split; try exact Hlen.
  - destruct H as [k [Hk Hc]]. apply contains_spec in Hc.
    destruct Hc as [a [b Hab]]. now exists k, a, b.
  - destruct H as [k [a [b [Hk Hab]]]]. exists k. split; [exact Hk |].
    apply contains_spec. now exists a, b.
Qed.

Lemma in_accepted (keywords : list string) (text r : string) :
  In r (accepted keywords text) <->
  exists sentence,
    In sentence (split ". " text) /\ kept_sentence keywords sentence r.
Proof.
  unfold accepted, kept_sentence. rewrite in_map_iff. split.
  - intros [x [Hr Hx]]. apply filter_In in Hx. destruct Hx as [Hx Hk].
    apply keeps_spec in Hk. exists x. now repeat split.
  - intros [x [Hx [Hr Hk]]]. exists x. split; [now symmetry |].
    apply filter_In. split; [exact Hx |]. now apply keeps_spec.
Qed.

Lemma in_firstn {A : Type} (n : nat) (l : list A) (x : A) :
  In x (firstn n l) -> In x l.
Proof.
  revert l; induction n as [|n IH]; intros [|y l]; simpl; try tauto.
  intros [H | H]; [now left | right; now apply IH].
Qed.

Lemma length_firstn_le {A : Type} (n : nat) (l : list A) :
  length (firstn n l) <= n.
Proof. rewrite length_firstn. apply Nat.le_min_l. Qed.

Lemma extract_heritage_facts_str (text : string) :
  extract_heritage_facts (JStr text)
  = Ok (firstn 5 (accepted heritage_keywords text)).
Proof.
  unfold extract_heritage_facts, accepted. cbn [truthy str_split bind].
  rewrite keyword_sentences_accepted.
  destruct text as [|c text]; reflexivity.
Qed.

Lemma extract_cultural_info_str (text : string) :
  extract_cultural_info (JStr text)
  = Ok (firstn 3 (accepted cultural_keywords text)).
Proof.
  unfold extract_cultural_info, accepted. cbn [truthy str_split bind].
  rewrite keyword_sentences_accepted.
  destruct text as [|c text]; reflexivity.
Qed.

Lemma kept_sentence_shape (keywords : list string) (sentence r : string) :
  kept_sentence keywords sentence r ->
  strip r = r /\ 20 < String.length r /\
  exists keyword a b, In keyword keywords /\ lower r = a ++ keyword ++ b.
Proof.
  intros [-> [Hlen [k [a [b [Hk Hab]]]]]]. split; [|split].
  - apply strip_with_period.
  - rewrite length_app. simpl. lia.
  - exists k, a, (b ++ "."). split; [exact Hk |].
    rewrite lower_app, Hab, !app_assoc_str. reflexivity.
Qed.

End KeywordFacts.

(** ** The order of [sorted] *)

Section OrderFacts.
Import PyStr Summarizer Notions.

Lemma ascii_compare_cases (c d : ascii) :
  (Ascii.compare c d = Eq /\ c = d)
  \/ (Ascii.compare c d = Lt /\ (N_of_ascii c < N_of_ascii d)%N)
  \/ (Ascii.compare c d = Gt /\ (N_of_ascii d < N_of_ascii c)%N).
Proof.
  unfold Ascii.compare.
  destruct (N.compare_spec (N_of_ascii c) (N_of_ascii d)) as [E | L | G].
  - left. split; [reflexivity |].
    rewrite <- (ascii_N_embedding c), <- (ascii_N_embedding d). now rewrite E.
  - right; left. now split.
  - right; right. now split.
Qed.

Lemma le_refl (a : string) : le a a = true.
Proof.
  unfold le, String.leb.
  destruct (String.compare a a) eqn:E; try reflexivity.
  pose proof (String.compare_antisym a a) as H. rewrite E in H. discriminate.
Qed.

Lemma le_trans (a b c : string) :
  le a b = true -> le b c = true -> le a c = true.
Proof.
  unfold le, String.leb. revert b c.
  induction a as [|x a IH]; intros [|y b] [|z c]; simpl; try easy.
  destruct (ascii_compare_cases x y) as [[E1 H1] | [[E1 H1] | [E1 H1]]];
    destruct (ascii_compare_cases y z) as [[E2 H2] | [[E2 H2] | [E2 H2]]];
    destruct (ascii_compare_cases x z) as [[E3 H3] | [[E3 H3] | [E3 H3]]];
    rewrite E1, E2, E3; subst; try easy; try lia.
  apply IH.
Qed.

Lemma le_antisym (a b : string) : le a b = true -> le b a = true -> a = b.
Proof. apply String.leb_antisym. Qed.

Lemma le_total (a b : string) : le a b = true \/ le b a = true.
Proof. apply String.leb_total. Qed.

Lemma insert_by_period_perm (x : timeline_entry) (l : list timeline_entry) :
  Permutation (insert_by_period x l) (x :: l).
Proof.
  induction l as [|y l IH]; simpl; [reflexivity |].
  destruct (le (period x) (period y)); [reflexivity |].
  rewrite IH. apply perm_swap.
Qed.

Lemma sorted_by_period_perm (l : list timeline_entry) :
  Permutation (sorted_by_period l) l.
Proof.
  induction l as [|x l IH]; simpl; [reflexivity |].
  rewrite insert_by_period_perm. now constructor.
Qed.

Lemma insert_by_period_sorted (x : timeline_entry) (l : list timeline_entry) :
  StronglySorted period_le l -> StronglySorted period_le (insert_by_period x l).
Proof.
  induction 1 as [|y l Hl IH Hy]; simpl.
  - repeat constructor.
  - destruct (le (period x) (period y)) eqn:E.
    + constructor; [now constructor |].
      constructor; [exact E |].
      rewrite Forall_forall in *. intros z Hz.
      unfold period_le. apply (le_trans _ (period y)); [exact E | now apply Hy].
    + constructor; [exact IH |].
      rewrite Forall_forall in *. intros z Hz.
      apply (Permutation_in _ (insert_by_period_perm x l)) in Hz.
      destruct Hz as [<- | Hz]; [| now apply Hy].
      unfold period_le. destruct (le_total (period x) (period y)); congruence.
Qed.

Lemma sorted_by_period_sorted (l : list timeline_entry) :
  StronglySorted period_le (sorted_by_period l).
Proof.
  induction l as [|x l IH]; simpl; [constructor |].
  now apply insert_by_period_sorted.
Qed.

(** Two sorted arrangements of the same entries are the same list, when
    the period tells the entries apart. *)
Lemma sorted_perm_unique (l1 l2 : list timeline_entry) :
  (forall a b, In a l1 -> In b l1 -> period a = period b -> a = b) ->
  StronglySorted period_le l1 -> StronglySorted period_le l2 ->
  Permutation l1 l2 -> l1 = l2.
Proof.
  revert l2. induction l1 as [|a l1 IH]; intros l2 Hinj S1 S2 P.
  - now apply Permutation_nil in P.
  - destruct l2 as [|b l2];
      [apply Permutation_sym, Permutation_nil in P; discriminate |].
    assert (Hab : a = b).
    { assert (Ha : In a (b :: l2))
        by (apply (Permutation_in _ P); now left).
      assert (Hb : In b (a :: l1))
        by (apply (Permutation_in _ (Permutation_sym P)); now left).
      destruct Ha as [Ha | Ha]; [now symmetry |].
      destruct Hb as [Hb | Hb]; [exact Hb |].
      apply Hinj; [now left | now right |].
      inversion S1 as [|? ? _ F1]; inversion S2 as [|? ? _ F2]; subst.
      rewrite Forall_forall in F1, F2.
      apply le_antisym; [now apply F1 | now apply F2]. }
    subst b. f_equal. apply IH.
    + intros x y Hx Hy. apply Hinj; now right.
    + now inversion S1.
    + now inversion S2.
    + now apply Permutation_cons_inv in P.
Qed.

(** [sorted_by_period] is stable: entries of one period keep their order. *)
Lemma insert_by_period_filter (p : string) (x : timeline_entry)
    (l : list timeline_entry) :
  filter (fun e => String.eqb (period e) p) (insert_by_period x l)
  = filter (fun e => String.eqb (period e) p) (x :: l).
Proof.
  induction l as [|y l IH]; [reflexivity |].
  cbn [insert_by_period]. destruct (le (period x) (period y)) eqn:E;
    [reflexivity |].
  cbn [filter] in *. rewrite IH.
  destruct (String.eqb_spec (period x) p) as [Hx | Hx];
    destruct (String.eqb_spec (period y) p) as [Hy | Hy]; try reflexivity.
  rewrite Hx, Hy, le_refl in E. discriminate.
Qed.

Lemma sorted_by_period_stable (p : string) (l : list timeline_entry) :
  filter (fun e => String.eqb (period e) p) (sorted_by_period l)
  = filter (fun e => String.eqb (period e) p) l.
Proof.
  induction l as [|x l IH]; [reflexivity |].
  cbn [sorted_by_period]. rewrite insert_by_period_filter.
  cbn [filter]. now rewrite IH.
Qed.

Lemma set_of_in (years : list string) (y : string) :
  In y (set_of years) <-> In y years.
Proof.
  induction years as [|x l IH]; simpl; [tauto |].
  rewrite filter_In, IH, negb_true_iff, String.eqb_neq.
  destruct (string_dec x y) as [->|Hxy]; [tauto |].
  split; [tauto |]. intros [H | H]; [tauto |]. right. split; congruence.
Qed.

Lemma set_of_nodup (years : list string) : NoDup (set_of years).
Proof.
  induction years as [|x l IH]; simpl; constructor.
  - rewrite filter_In, negb_true_iff, String.eqb_neq. tauto.
  - now apply NoDup_filter.
Qed.

Lemma set_of_iteration (years : list string) :
  set_iteration years (set_of years).
Proof. split; [apply set_of_nodup | apply set_of_in]. Qed.

Lemma set_iteration_perm (years o1 o2 : list string) :
  set_iteration years o1 -> set_iteration years o2 -> Permutation o1 o2.
Proof.
  intros [N1 H1] [N2 H2]. apply NoDup_Permutation; try assumption.
  intros y. now rewrite H1, H2.
Qed.

End OrderFacts.

(** ** The patterns *)

Section PatternFacts.
Import PyStr Re Notions.

Lemma findall_go_occurrences {A : Type}
    (m : option ascii -> string -> option (A * nat)) :
  (forall prev c r g len,
      m prev (String c r) = Some (g, len) -> quiet m (len - 1) (Some c) r) ->
  forall s k prev,
    quiet m k prev s -> findall_go m k prev s = occurrences_from m prev s.
Proof.
  intros Hm. induction s as [|c r IH]; intros k prev Hq; [reflexivity |].
  cbn [findall_go occurrences_from]. destruct k as [|k].
  - destruct (m prev (String c r)) as [[g len]|] eqn:E.
    + f_equal. apply IH. now apply (Hm prev c r g).
    + now apply IH.
  - destruct Hq as [E Hq]. rewrite E. now apply IH.
Qed.

Lemma in_occurrences_from {A : Type}
    (m : option ascii -> string -> option (A * nat)) (g : A) :
  forall s prev,
    In g (occurrences_from m prev s) <->
    exists pre post len,
      s = pre ++ post /\ post <> "" /\
      m (char_before prev pre) post = Some (g, len).
Proof.
  induction s as [|c r IH]; intros prev.
  - simpl. split; [tauto |]. intros [pre [post [len [E [Hp _]]]]].
    destruct pre; simpl in E; [congruence | discriminate].
  - cbn [occurrences_from]. split.
    + intros H.
      assert (Hcase : (exists len, m prev (String c r) = Some (g, len))
                      \/ In g (occurrences_from m (Some c) r)).
      { destruct (m prev (String c r)) as [[g' len]|] eqn:E.
        - destruct H as [<- | H]; [left; now exists len | now right].
        - now right. }
      destruct Hcase as [[len E] | Hin].
      * exists "", (String c r), len. repeat split; [discriminate | exact E].
      * apply IH in Hin. destruct Hin as [pre [post [len [E [Hp Hm]]]]].
        exists (String c pre), post, len. split; [simpl; now rewrite E |].
        now split.
    + intros [pre [post [len [E [Hp Hm]]]]]. destruct pre as [|d pre].
      * simpl in E, Hm. subst post. rewrite Hm. now left.
      * simpl in E. injection E as -> ->. cbn [char_before] in Hm.
        assert (Hin : In g (occurrences_from m (Some d) (pre ++ post)))
          by (apply IH; now exists pre, post, len).
        destruct (m prev (String d (pre ++ post))) as [[g' len']|];
          [now right | exact Hin].
Qed.

Lemma in_range_spec (lo hi : N) (c : ascii) :
  in_range lo hi c = true <-> (lo <= code c <= hi)%N.
Proof. unfold in_range. now rewrite andb_true_iff, !N.leb_le. Qed.

Lemma chr_spec (c d : ascii) : chr c d = true <-> code c = code d.
Proof.
  unfold chr, code. rewrite Ascii.eqb_eq. split; [now intros -> |].
  intros E. rewrite <- (ascii_N_embedding c), <- (ascii_N_embedding d).
  now rewrite E.
Qed.

Lemma is_digit_is_word (c : ascii) : is_digit c = true -> is_word c = true.
Proof. unfold is_digit, is_word. now intros ->. Qed.

Lemma digit_value_spec (c : ascii) (n : nat) :
  digit_value c = Some n <->
  (48 <= code c <= 57)%N /\ n = N.to_nat (code c) - 48.
Proof.
  unfold digit_value, is_digit.
  destruct (in_range 48 57 c) eqn:E.
  - apply in_range_spec in E. split.
    + intros [= <-]. now split.
    + intros [_ ->]. reflexivity.
  - split; [discriminate |]. intros [H _].
    apply in_range_spec in H. congruence.
Qed.

Lemma digit_value_of_digit (c : ascii) :
  is_digit c = true -> digit_value c = Some (N.to_nat (code c) - 48).
Proof. unfold digit_value. now intros ->. Qed.

(** The four characters the year pattern accepts are the years of the two
    ranges. *)
Lemma year_digits_spec (c1 c2 c3 c4 : ascii) :
  year_digits c1 c2 c3 c4 = true <->
  year_in_range (String c1 (String c2 (String c3 (String c4 "")))).
Proof.
  unfold year_digits, year_in_range, year_value, is_digit.
  rewrite orb_true_iff, !andb_true_iff, !chr_spec, !in_range_spec.
  change (code "1") with 49%N. change (code "2") with 50%N.
  change (code "0") with 48%N.
  split.
  - intros H.
    assert (D : is_digit c1 = true /\ is_digit c2 = true
                /\ is_digit c3 = true /\ is_digit c4 = true).
    { unfold is_digit. rewrite !in_range_spec. lia. }
    destruct D as [D1 [D2 [D3 D4]]].
    rewrite (digit_value_of_digit _ D1), (digit_value_of_digit _ D2),
      (digit_value_of_digit _ D3), (digit_value_of_digit _ D4).
    eexists. split; [reflexivity |]. lia.
  - intros [n [Hn Hr]].
    destruct (digit_value c1) as [a|] eqn:E1; [|discriminate].
    destruct (digit_value c2) as [b|] eqn:E2; [|discriminate].
    destruct (digit_value c3) as [c|] eqn:E3; [|discriminate].
    destruct (digit_value c4) as [d|] eqn:E4; [|discriminate].
    apply digit_value_spec in E1, E2, E3, E4.
    injection Hn as <-. lia.
Qed.

Lemma year_digits_word (c1 c2 c3 c4 : ascii) :
  year_digits c1 c2 c3 c4 = true ->
  is_word c1 = true /\ is_word c2 = true /\ is_word c3 = true
  /\ is_word c4 = true.
Proof.
  intros H. unfold year_digits, is_digit in H.
  rewrite orb_true_iff, !andb_true_iff, !chr_spec, !in_range_spec in H.
  change (code "1") with 49%N in H. change (code "2") with 50%N in H.
  change (code "0") with 48%N in H.
  repeat split; apply is_digit_is_word; unfold is_digit;
    apply in_range_spec; lia.
Qed.

(** What a match of the year pattern at one position is. *)
Lemma year_pattern_spec (prev : option ascii) (s y : string) :
  (exists len, year_pattern prev s = Some (y, len)) <->
  year_in_range y /\
  exists post,
    s = y ++ post /\
    is_word_at prev = false /\ is_word_at (head post) = false.
Proof.
  split.
  - intros [len H]. unfold year_pattern in H.
    destruct s as [|c1 [|c2 [|c3 [|c4 post]]]]; try discriminate.
    destruct (word_boundary prev (Some c1)) eqn:B1; [|discriminate].
    destruct (year_digits c1 c2 c3 c4) eqn:D; [|discriminate].
    destruct (word_boundary (Some c4) (head post)) eqn:B2; [|discriminate].
    injection H as <- <-.
    destruct (year_digits_word _ _ _ _ D) as [W1 [_ [_ W4]]].
    split; [now apply year_digits_spec |]. exists post.
    unfold word_boundary in B1, B2. cbn [is_word_at] in B1, B2.
    rewrite W1 in B1. rewrite W4 in B2.
    split; [reflexivity |]. split.
    + now destruct (is_word_at prev).
    + now destruct (is_word_at (head post)).
  - intros [Hy [post [-> [P1 P2]]]].
    assert (Hy' := Hy). destruct Hy' as [n [Hn _]].
    destruct y as [|c1 [|c2 [|c3 [|c4 [|c5 y]]]]]; try discriminate.
    apply year_digits_spec in Hy.
    destruct (year_digits_word _ _ _ _ Hy) as [W1 [_ [_ W4]]].
    exists 4. cbn [append year_pattern]. unfold word_boundary.
    cbn [is_word_at]. now rewrite P1, P2, W1, W4, Hy.
Qed.

Lemma year_pattern_length (prev : option ascii) (s y : string) (len : nat) :
  year_pattern prev s = Some (y, len) -> len = 4 /\ String.length y = 4.
Proof.
  unfold year_pattern.
  destruct s as [|c1 [|c2 [|c3 [|c4 post]]]]; try discriminate.
  destruct (_ && _); [|discriminate]. now intros [= <- <-].
Qed.

Lemma year_pattern_after_word (prev : option ascii) (s : string) :
  is_word_at prev = true -> year_pattern prev s = None.
Proof.
  intros W. destruct (year_pattern prev s) as [[y len]|] eqn:E; [|reflexivity].
  assert (H : exists len, year_pattern prev s = Some (y, len))
    by now exists len.
  apply year_pattern_spec in H. destruct H as [_ [post [_ [P _]]]]. congruence.
Qed.

Lemma year_pattern_quiet (prev : option ascii) (c : ascii) (r y : string)
    (len : nat) :
  year_pattern prev (String c r) = Some (y, len) ->
  quiet year_pattern (len - 1) (Some c) r.
Proof.
  intros H. destruct (year_pattern_length _ _ _ _ H) as [-> _].
  unfold year_pattern in H.
  destruct r as [|c2 [|c3 [|c4 post]]]; try discriminate.
  destruct (word_boundary prev (Some c)); [|discriminate].
  destruct (year_digits c c2 c3 c4) eqn:D; [|discriminate].
  destruct (year_digits_word _ _ _ _ D) as [W1 [W2 [W3 _]]].
  cbn [Nat.sub quiet]. repeat split; now apply year_pattern_after_word.
Qed.

(** The matches [re.findall] reports for the year pattern are its matches
    at all positions: no two of them overlap. *)
Lemma findall_year_pattern (text : string) :
  findall year_pattern text = occurrences year_pattern text.
Proof.
  apply findall_go_occurrences; [apply year_pattern_quiet | exact I].
Qed.


Lemma findall_years_length (text y : string) :
  In y (findall year_pattern text) -> String.length y = 4.
Proof.
  rewrite findall_year_pattern. unfold occurrences.
  rewrite in_occurrences_from. intros [pre [rest [len [_ [_ H]]]]].
  now apply year_pattern_length in H.
Qed.



















Lemma century_pattern_not_digit (prev : option ascii) (c : ascii) (r : string) :
  is_digit c = false -> century_pattern prev (String c r) = None.
Proof.
  intros H. unfold century_pattern. now rewrite H, andb_false_r.
Qed.





End PatternFacts.

(** ** The timeline *)

Section TimelineFacts.
Import PyStr Py Re Summarizer Notions.

(** The two kinds of entries never share a period: a year has four
    characters, a century at least eight. *)
Lemma timeline_entry_kinds (order : list string)
    (centuries : list (string * string)) (a : timeline_entry) :
  (forall y, In y order -> String.length y = 4) ->
  In a (map year_entry order ++ map century_entry centuries)%list ->
  (type a = "year" /\ String.length (period a) = 4)
  \/ (type a = "century" /\ 8 <= String.length (period a)).
Proof.
  intros Hlen H. apply in_app_or in H. destruct H as [H | H];
    apply in_map_iff in H.
  - destruct H as [y [<- Hy]]. left. split; [reflexivity | now apply Hlen].
  - destruct H as [[c x] [<- _]]. right. split; [reflexivity |].
    cbn [century_entry period]. rewrite !length_app. simpl. lia.
Qed.

Lemma period_tells_entries_apart (order : list string)
    (centuries : list (string * string)) (a b : timeline_entry) :
  (forall y, In y order -> String.length y = 4) ->
  In a (map year_entry order ++ map century_entry centuries)%list ->
  In b (map year_entry order ++ map century_entry centuries)%list ->
  period a = period b -> a = b.
Proof.
  intros Hlen Ha Hb E.
  destruct (timeline_entry_kinds _ _ _ Hlen Ha) as [[Ta La] | [Ta La]];
    destruct (timeline_entry_kinds _ _ _ Hlen Hb) as [[Tb Lb] | [Tb Lb]];
    destruct a as [pa ta], b as [pb tb]; cbn [period type] in *; subst;
    try reflexivity; lia.
Qed.

(** The order in which the set of years is visited does not show. *)
Lemma timeline_order_irrelevant (years o1 o2 : list string)
    (centuries : list (string * string)) :
  (forall y, In y years -> String.length y = 4) ->
  set_iteration years o1 -> set_iteration years o2 ->
  timeline_in_order o1 centuries = timeline_in_order o2 centuries.
Proof.
  intros Hlen H1 H2. unfold timeline_in_order. f_equal.
  assert (P : Permutation (map year_entry o1 ++ map century_entry centuries)
                          (map year_entry o2 ++ map century_entry centuries))
    by (apply Permutation_app_tail, Permutation_map;
        exact (set_iteration_perm years o1 o2 H1 H2)).
  apply sorted_perm_unique.
  - intros a b Ha Hb.
    apply (period_tells_entries_apart o1 centuries).
    + intros y Hy. apply Hlen, H1, Hy.
    + now apply (Permutation_in _ (sorted_by_period_perm _)).
    + now apply (Permutation_in _ (sorted_by_period_perm _)).
  - apply sorted_by_period_sorted.
  - apply sorted_by_period_sorted.
  - rewrite !sorted_by_period_perm. exact P.
Qed.

(** [extract_historical_dates] is the one result the program can give. *)
Lemma historical_dates_function (text : json)
    (out : result (list timeline_entry)) :
  historical_dates text out <-> out = extract_historical_dates text.
Proof.
  unfold historical_dates, extract_historical_dates.
  destruct (negb (truthy text)); [tauto |].
  destruct (re_subject text) as [s | e]; cbn [bind]; [| tauto].
  split.
  - intros [order [Ho ->]]. f_equal.
    apply (timeline_order_irrelevant (findall year_pattern s));
      [apply findall_years_length | exact Ho | apply set_of_iteration].
  - intros ->. exists (set_of (findall year_pattern s)).
    split; [apply set_of_iteration | reflexivity].
Qed.

Lemma extract_historical_dates_str (text : string) :
  extract_historical_dates (JStr text)
  = Ok (timeline_in_order (set_of (findall year_pattern text))
                          (findall century_pattern text)).
Proof. destruct text; reflexivity. Qed.

End TimelineFacts.

(** ** The client and the endpoints *)

Section ClientFacts.
Import PyStr Py Summarizer WikimediaClient Api Notions.

Variable net : network.

Lemma try_except_ok {A : Type} (body : result A) (handler : A) :
  exists a, try_except body handler = Ok a.
Proof. destruct body as [a | e]; [now exists a | now exists handler]. Qed.

Lemma try_except_raise {A : Type} (e : exn) (handler : A) :
  try_except (Raise e) handler = Ok handler.
Proof. reflexivity. Qed.

(** A fault of the one request of a fetch gives the fetch's empty value. *)
Lemma get_article_content_fault (title lang : string) (e : exn) :
  net (get_article_content_request title lang) = Raise e ->
  get_article_content net title lang = Ok (JDict []).
Proof. unfold get_article_content. now intros ->. Qed.

Lemma get_wikivoyage_content_fault (location lang : string) (e : exn) :
  net (get_wikivoyage_content_request location lang) = Raise e ->
  get_wikivoyage_content net location lang = Ok (JDict []).
Proof. unfold get_wikivoyage_content. now intros ->. Qed.

Lemma get_commons_images_fault (search_term : string) (limit : Z) (e : exn) :
  net (get_commons_images_request search_term limit) = Raise e ->
  get_commons_images net search_term limit = Ok [].
Proof. unfold get_commons_images. now intros ->. Qed.

Lemma length_slice_to {A : Type} (l : list A) (n : Z) :
  (0 <= n)%Z -> length (slice_to l n) <= Z.to_nat n.
Proof.
  intros H. unfold slice_to. destruct (0 <=? n)%Z eqn:E.
  - apply length_firstn_le.
  - apply Z.leb_gt in E. lia.
Qed.

Lemma get_commons_images_length (search_term : string) (limit : Z)
    (images : list json) :
  (0 <= limit)%Z ->
  get_commons_images net search_term limit = Ok images ->
  length images <= Z.to_nat limit.
Proof.
  intros Hl. unfold get_commons_images.
  destruct (net _) as [data | e]; cbn [bind try_except];
    [| intros [= <-]; simpl; lia].
  destruct (has_path data "query" "search") as [[|] | e]; cbn [bind];
    try (intros [= <-]; simpl; lia).
  destruct (get_path data "query" "search") as [hits | e]; cbn [bind];
    [| intros [= <-]; simpl; lia].
  destruct (iter hits) as [items | e]; cbn [bind];
    [| intros [= <-]; simpl; lia].
  destruct (images_loop net items []) as [l | e]; cbn [bind];
    [| intros [= <-]; simpl; lia].
  intros [= <-]. now apply length_slice_to.
Qed.

(** The loop over the hits, when no lookup raises. *)
Lemma images_loop_resolved (items images : list json) :
  (forall item, In item items -> exists o, image_of_hit net item = Ok o) ->
  images_loop net items images = Ok (images ++ resolved net items)%list.
Proof.
  revert images. induction items as [|item rest IH]; intros images H.
  - simpl. now rewrite app_nil_r.
  - destruct (H item (or_introl eq_refl)) as [o Ho].
    cbn [images_loop resolved flat_map]. rewrite Ho.
    destruct o as [entry|]; rewrite IH by (intros i Hi; apply H; now right);
      unfold resolved; [now rewrite <- app_assoc | reflexivity].
Qed.

(** The loop over the hits, when some lookup raises. *)
Lemma images_loop_fault (items images : list json) :
  (exists item e, In item items /\ image_of_hit net item = Raise e) ->
  exists e, images_loop net items images = Raise e.
Proof.
  revert images. induction items as [|item rest IH]; intros images.
  - intros [i [e [[] _]]].
  - intros [i [e [Hi He]]]. cbn [images_loop].
    destruct (image_of_hit net item) as [[entry|] | e'] eqn:E.
    + apply IH. destruct Hi as [-> | Hi]; [congruence | now exists i, e].
    + apply IH. destruct Hi as [-> | Hi]; [congruence | now exists i, e].
    + now exists e'.
Qed.

Lemma image_entry_shape (item img_info entry : json) :
  image_entry item img_info = Ok entry ->
  exists title url full_url width height description,
    entry = media_asset title url full_url width height description.
Proof.
  unfold image_entry. intros H. bind_inv H. injection H as <-.
  now eexists _, _, _, _, _, _.
Qed.

Lemma image_of_hit_shape (item entry : json) :
  image_of_hit net item = Ok (Some entry) ->
  exists title url full_url width height description,
    entry = media_asset title url full_url width height description.
Proof.
  unfold image_of_hit. bind_cases.
  intros [= <-]. eapply image_entry_shape. eassumption.
Qed.

Lemma images_loop_shape (items images out : list json) :
  (forall entry, In entry images ->
     exists title url full_url width height description,
       entry = media_asset title url full_url width height description) ->
  images_loop net items images = Ok out ->
  forall entry, In entry out ->
    exists title url full_url width height description,
      entry = media_asset title url full_url width height description.
Proof.
  revert images. induction items as [|item rest IH]; intros images Himg.
  - intros [= <-]. exact Himg.
  - cbn [images_loop].
    destruct (image_of_hit net item) as [[entry|] | e] eqn:E;
      [| now apply IH | discriminate].
    apply IH. intros x Hx. apply in_app_or in Hx.
    destruct Hx as [Hx | [<- | []]]; [now apply Himg |].
    now apply (image_of_hit_shape item).
Qed.

Lemma in_slice_to {A : Type} (l : list A) (n : Z) (x : A) :
  In x (slice_to l n) -> In x l.
Proof. unfold slice_to. destruct (0 <=? n)%Z; apply in_firstn. Qed.

(** What [heritage_data] returns when it returns. *)
Lemma heritage_data_shape (location_id location_title lang : string)
    (wiki_content : result json) (images : result (list json))
    (wikivoyage_content : result json) (r : json) :
  heritage_data location_id location_title lang
    wiki_content images wikivoyage_content = Ok r ->
  exists extract coordinates categories page_image travel_extract
         travel_image facts notes timeline,
    r = composite_record location_id location_title lang
          extract coordinates categories page_image
          travel_extract travel_image
          (unless_exception images [])
          facts notes timeline
    /\ extract_heritage_facts extract = Ok facts
    /\ extract_cultural_info extract = Ok notes
    /\ extract_historical_dates extract = Ok timeline.
Proof.
  unfold heritage_data. intros H. bind_inv H. injection H as <-.
  repeat match goal with
         | H1 : ?x = Ok ?a, H2 : ?x = Ok ?b |- _ =>
             rewrite H1 in H2; injection H2 as <-
         end.
  now eexists _, _, _, _, _, _, _, _, _.
Qed.

Lemma get_heritage_content_shape (location_id lang : string) (r : json) :
  get_heritage_content net location_id lang = Ok r ->
  exists extract coordinates categories page_image travel_extract
         travel_image images facts notes timeline,
    r = composite_record location_id (replace "_" " " location_id) lang
          extract coordinates categories page_image
          travel_extract travel_image images facts notes timeline
    /\ length images <= 10
    /\ extract_heritage_facts extract = Ok facts
    /\ extract_cultural_info extract = Ok notes
    /\ extract_historical_dates extract = Ok timeline.
Proof.
  unfold get_heritage_content, try_reraise.
  destruct (heritage_data _ _ _ _ _ _) as [r' | e] eqn:E; [| discriminate].
  intros [= <-]. apply heritage_data_shape in E.
  destruct E as [x1 [x2 [x3 [x4 [x5 [x6 [f [n [t [-> [Hf [Hn Ht]]]]]]]]]]]].
  exists x1, x2, x3, x4, x5, x6.
  exists (unless_exception
            (get_commons_images net (replace "_" " " location_id) 10) []).
  exists f, n, t. repeat split; try assumption.
  destruct (get_commons_images net _ 10) as [l | e] eqn:G; simpl; [| lia].
  apply get_commons_images_length in G; [exact G | lia].
Qed.

Lemma get_heritage_content_faults (location_id lang : string)
    (e1 e2 e3 : exn) :
  let location_title := replace "_" " " location_id in
  net (get_article_content_request location_title lang) = Raise e1 ->
  net (get_commons_images_request location_title 10) = Raise e2 ->
  net (get_wikivoyage_content_request location_title lang) = Raise e3 ->
  get_heritage_content net location_id lang
  = Ok (empty_record location_id location_title lang).
Proof.
  intros t H1 H2 H3. unfold get_heritage_content.
  fold t. rewrite (get_article_content_fault _ _ _ H1),
    (get_commons_images_fault _ _ _ H2),
    (get_wikivoyage_content_fault _ _ _ H3).
  reflexivity.
Qed.

Lemma dict_get_language (lang : string) :
  dict_get LANGUAGE_CODES lang "en" = host_language lang.
Proof.
  unfold dict_get, host_language, LANGUAGE_CODES. cbn [find existsb fst snd].
  repeat match goal with
         | |- context [String.eqb lang ?k] =>
             destruct (String.eqb_spec lang k) as [-> | ?]; [reflexivity |]
         end.
  reflexivity.
Qed.

End ClientFacts.

(* ================================================================= *)
(** * The claims *)

Section SummarizerClaims.
Import PyStr Py Re Summarizer Notions.

(** C4. For every text, [extract_heritage_facts] and
    [extract_cultural_info] return: at most 5, respectively 3, strings,
    which are the first accepted sentences in the order of the text; each
    returned string is a stripped sentence of the text with its period, is
    itself stripped, has more than 20 characters (so has the sentence
    without the period), and holds in lower case a keyword of the
    function's list. An empty text and a missing one ([None]) give the
    empty list, in the timeline extractor too. *)
Theorem keyword_extractors_sound (text : string) :
  exists facts notes,
    extract_heritage_facts (JStr text) = Ok facts /\
    extract_cultural_info (JStr text) = Ok notes /\
    length facts <= 5 /\ length notes <= 3 /\
    facts = firstn 5 (accepted heritage_keywords text) /\
    notes = firstn 3 (accepted cultural_keywords text) /\
    (forall r, In r facts ->
       (exists sentence, In sentence (split ". " text) /\
                         kept_sentence heritage_keywords sentence r) /\
       strip r = r /\ 20 < String.length r /\
       exists keyword a b,
         In keyword heritage_keywords /\ lower r = a ++ keyword ++ b) /\
    (forall r, In r notes ->
       (exists sentence, In sentence (split ". " text) /\
                         kept_sentence cultural_keywords sentence r) /\
       strip r = r /\ 20 < String.length r /\
       exists keyword a b,
         In keyword cultural_keywords /\ lower r = a ++ keyword ++ b) /\
    extract_heritage_facts (JStr "") = Ok [] /\
    extract_heritage_facts JNull = Ok [] /\
    extract_cultural_info (JStr "") = Ok [] /\
    extract_cultural_info JNull = Ok [] /\
    extract_historical_dates (JStr "") = Ok [] /\
    extract_historical_dates JNull = Ok [].
Proof.
  exists (firstn 5 (accepted heritage_keywords text)),
         (firstn 3 (accepted cultural_keywords text)).
  split; [apply extract_heritage_facts_str |].
  split; [apply extract_cultural_info_str |].
  split; [apply length_firstn_le |]. split; [apply length_firstn_le |].
  split; [reflexivity |]. split; [reflexivity |].
  split; [| split].
  - intros r Hr. apply in_firstn, in_accepted in Hr.
    destruct Hr as [sentence [Hs Hk]]. split; [now exists sentence |].
    exact (kept_sentence_shape _ _ _ Hk).
  - intros r Hr. apply in_firstn, in_accepted in Hr.
    destruct Hr as [sentence [Hs Hk]]. split; [now exists sentence |].
    exact (kept_sentence_shape _ _ _ Hk).
  - repeat split.
Qed.

Lemma keyword_extractors_sound_witness :
  exists facts,
    extract_heritage_facts
      (JStr "Hampi was the capital of the Vijayanagara empire. Go.") = Ok facts /\
    In "Hampi was the capital of the Vijayanagara empire." facts /\
    strip "Hampi was the capital of the Vijayanagara empire."
    = "Hampi was the capital of the Vijayanagara empire." /\
    20 < String.length "Hampi was the capital of the Vijayanagara empire.".
Proof.
  destruct (keyword_extractors_sound
              "Hampi was the capital of the Vijayanagara empire. Go.")
    as [facts [notes [Hf [_ [_ [_ [Ef [_ [H _]]]]]]]]].
  assert (Hin : In "Hampi was the capital of the Vijayanagara empire." facts)
    by (rewrite Ef; vm_compute; tauto).
  exists facts. split; [exact Hf |]. split; [exact Hin |].
  destruct (H _ Hin) as [_ [Hs [Hl _]]]. now split.
Defined.

(** C5. On the text of the specification's example, [extract_heritage_facts]
    returns the two sentences of the text, each with the period the
    function appends, and the timeline is the year 1565 followed by the
    19th century, whatever the order in which the set of years is
    visited. *)
Theorem fort_example :
  let text := "The fort was built in 1565 and renovated in the 19th century. It is a famous temple." in
  split ". " text
  = [ "The fort was built in 1565 and renovated in the 19th century";
      "It is a famous temple." ] /\
  extract_heritage_facts (JStr text)
  = Ok [ "The fort was built in 1565 and renovated in the 19th century.";
         "It is a famous temple.." ] /\
  Forall (fun sentence =>
            20 < String.length sentence /\
            exists keyword, In keyword heritage_keywords /\
                            contains keyword (lower sentence) = true)
         (split ". " text) /\
  extract_historical_dates (JStr text)
  = Ok [ {| period := "1565"; type := "year" |};
         {| period := "19th century"; type := "century" |} ] /\
  forall out, historical_dates (JStr text) out ->
    out = Ok [ {| period := "1565"; type := "year" |};
               {| period := "19th century"; type := "century" |} ].
Proof.
  cbv zeta. split; [vm_compute; reflexivity |].
  split; [vm_compute; reflexivity |]. split; [| split].
  - change (split _ _)
      with [ "The fort was built in 1565 and renovated in the 19th century";
             "It is a famous temple." ].
    repeat constructor; cbn [String.length]; try lia.
    + exists "built". split; [cbn; tauto | vm_compute; reflexivity].
    + exists "temple". split; [cbn; tauto | vm_compute; reflexivity].
  - vm_compute; reflexivity.
  - intros out H. apply historical_dates_function in H. rewrite H.
    vm_compute; reflexivity.
Qed.



(** C10. The three text-derivation functions give one result for a text:
    the keyword extractors are functions of the text, and whatever the
    order in which the set of years is visited, [extract_historical_dates]
    returns the same timeline; distinct years give entries of distinct
    periods, and century entries of equal periods are equal. *)
Theorem text_derivation_deterministic (text : json) :
  (forall out1 out2,
      historical_dates text out1 -> historical_dates text out2 ->
      out1 = out2) /\
  historical_dates text (extract_historical_dates text) /\
  (forall text', text' = text ->
      extract_heritage_facts text' = extract_heritage_facts text /\
      extract_cultural_info text' = extract_cultural_info text /\
      extract_historical_dates text' = extract_historical_dates text) /\
  (forall y1 y2, period (year_entry y1) = period (year_entry y2) -> y1 = y2) /\
  (forall g1 g2, period (century_entry g1) = period (century_entry g2) ->
                 century_entry g1 = century_entry g2).
Proof.
  split; [| split; [| split; [| split]]].
  - intros out1 out2 H1 H2. apply historical_dates_function in H1, H2.
    congruence.
  - now apply historical_dates_function.
  - intros text' ->. repeat split.
  - intros y1 y2 H. exact H.
  - intros [c1 x1] [c2 x2]. cbn [century_entry period]. now intros ->.
Qed.

Lemma text_derivation_deterministic_witness :
  Ok (timeline_in_order ["1999"; "1857"] [("3", "rd")])
  = Ok (timeline_in_order ["1857"; "1999"] [("3", "rd")]).
Proof.
  apply (proj1 (text_derivation_deterministic
                  (JStr "From 1999 back to 1857, the 3rd century."))).
  - exists ["1999"; "1857"]. split; [| vm_compute; reflexivity].
    split; [repeat constructor; simpl; intuition discriminate |].
    intros y. vm_compute. tauto.
  - exists ["1857"; "1999"]. split; [| vm_compute; reflexivity].
    split; [repeat constructor; simpl; intuition discriminate |].
    intros y. vm_compute. tauto.
Defined.

End SummarizerClaims.

Section AggregatorClaims.
Import PyStr Py Summarizer WikimediaClient Api Notions Scenario.

(** C1. When the three requests of [get_heritage_content] (article
    content, media search, travel content) all fault, the endpoint does
    not raise: it returns the composite record with every field present
    and empty values: empty Wikipedia extract, coordinates and categories,
    empty image list, empty travel extract, empty summaries. The same
    record results when the three awaited values are themselves
    exceptions. And whenever the endpoint returns, what it returns is a
    composite record with every field present. *)
Theorem heritage_content_all_sources_fail (net : network)
    (location_id lang : string) :
  let location_title := replace "_" " " location_id in
  (forall e1 e2 e3,
      net (get_article_content_request location_title lang) = Raise e1 ->
      net (get_commons_images_request location_title 10) = Raise e2 ->
      net (get_wikivoyage_content_request location_title lang) = Raise e3 ->
      get_heritage_content net location_id lang
      = Ok (empty_record location_id location_title lang)) /\
  (forall e1 e2 e3,
      heritage_data location_id location_title lang
        (Raise e1) (Raise e2) (Raise e3)
      = Ok (empty_record location_id location_title lang)) /\
  (forall r,
      get_heritage_content net location_id lang = Ok r ->
      exists extract coordinates categories page_image travel_extract
             travel_image images facts notes timeline,
        r = composite_record location_id location_title lang
              extract coordinates categories page_image
              travel_extract travel_image images facts notes timeline).
Proof.
  cbv zeta. split; [| split].
  - intros e1 e2 e3. apply get_heritage_content_faults.
  - reflexivity.
  - intros r H. apply get_heritage_content_shape in H.
    destruct H as [x1 [x2 [x3 [x4 [x5 [x6 [x7 [x8 [x9 [x10 [H _]]]]]]]]]]].
    now exists x1, x2, x3, x4, x5, x6, x7, x8, x9, x10.
Qed.

Lemma heritage_content_all_sources_fail_witness :
  get_heritage_content unreachable "Taj_Mahal" "fr"
  = Ok (empty_record "Taj_Mahal" "Taj Mahal" "fr").
Proof.
  apply (proj1 (heritage_content_all_sources_fail unreachable "Taj_Mahal" "fr")
           Exception Exception Exception); reflexivity.
Defined.

(** A decodable answer of an unexpected shape is no failed fetch: with an
    extract that is a number the endpoint raises its HTTP 500. *)
Lemma heritage_content_ill_shaped_answer :
  get_heritage_content numeric_extract "Taj_Mahal" "en"
  = Raise (HTTPException 500 "Heritage content service unavailable").
Proof. vm_compute. reflexivity. Qed.

(** C9. The composite record of [get_heritage_content] holds at most 10
    media assets: the endpoint calls the media search with its default
    limit of 10 and takes no limit of its own. *)
Theorem heritage_content_at_most_ten_images (net : network)
    (location_id lang : string) (r : json) :
  get_heritage_content net location_id lang = Ok r ->
  exists images,
    getitem r "images" = Ok (JList images) /\ length images <= 10.
Proof.
  intros H. apply get_heritage_content_shape in H.
  destruct H as [x1 [x2 [x3 [x4 [x5 [x6 [images [x8 [x9 [x10 [-> [H _]]]]]]]]]]]].
  now exists images.
Qed.

Lemma heritage_content_at_most_ten_images_witness :
  exists r images,
    get_heritage_content twelve_images "Taj_Mahal" "en" = Ok r /\
    getitem r "images" = Ok (JList images) /\ length images <= 10.
Proof.
  destruct (get_heritage_content twelve_images "Taj_Mahal" "en")
    as [r | e] eqn:E.
  - destruct (heritage_content_at_most_ten_images _ _ _ r E)
      as [images [Hg Hl]].
    now exists r, images.
  - vm_compute in E. discriminate E.
Defined.

(** With twelve files found and every lookup answering, ten are kept. *)
Lemma twelve_images_truncated :
  exists r images,
    get_heritage_content twelve_images "Taj_Mahal" "en" = Ok r /\
    getitem r "images" = Ok (JList images) /\ length images = 10.
Proof.
  eexists _, _. split; [vm_compute; reflexivity |].
  split; [vm_compute; reflexivity | reflexivity].
Qed.

(** C3, as the claim states it, fails: five files are found, the lookups
    of three of them answer and those of the two others fault; the
    operation returns no asset at all, not the three resolved ones. *)
Lemma commons_lookup_fault_empties_batch :
  (exists a c e,
      image_of_hit two_lookups_fault (hit "File:A.jpg") = Ok (Some a) /\
      image_of_hit two_lookups_fault (hit "File:C.jpg") = Ok (Some c) /\
      image_of_hit two_lookups_fault (hit "File:E.jpg") = Ok (Some e)) /\
  image_of_hit two_lookups_fault (hit "File:B.jpg") = Raise Exception /\
  image_of_hit two_lookups_fault (hit "File:D.jpg") = Raise Exception /\
  get_commons_images two_lookups_fault "Taj Mahal" 3 = Ok [].
Proof.
  split; [eexists _, _, _; repeat split; vm_compute; reflexivity |].
  repeat split; vm_compute; reflexivity.
Qed.

(** C3, amended. Let the media search answer with the hits [items]. If no
    second-stage lookup raises, the operation returns the first [limit]
    of the entries of the hits whose lookup gave image information, in the
    order of the hits: a hit whose lookup answers without image
    information is dropped alone. A lookup answers without image
    information exactly when its answer has no [query]/[pages] entry or
    its first page has no [imageinfo]; with [imageinfo] the hit gives the
    entry made of the first image information. If a second-stage lookup
    raises (the request faults, or the answer has an unexpected shape),
    the batch is abandoned and the operation returns the empty list.
    Every entry returned has its six fields. *)
Theorem commons_images_per_hit (net : network) (search_term : string)
    (limit : Z) (data hits : json) (items : list json) :
  net (get_commons_images_request search_term limit) = Ok data ->
  has_path data "query" "search" = Ok true ->
  get_path data "query" "search" = Ok hits ->
  iter hits = Ok items ->
  ((forall item, In item items -> exists o, image_of_hit net item = Ok o) ->
   get_commons_images net search_term limit
   = Ok (slice_to (resolved net items) limit)) /\
  ((exists item e, In item items /\ image_of_hit net item = Raise e) ->
   get_commons_images net search_term limit = Ok []) /\
  (forall item title e,
      In item items -> getitem item "title" = Ok title ->
      net (image_info_request title) = Raise e ->
      get_commons_images net search_term limit = Ok []) /\
  (forall item title img_data,
      getitem item "title" = Ok title ->
      net (image_info_request title) = Ok img_data ->
      has_path img_data "query" "pages" = Ok false ->
      image_of_hit net item = Ok None) /\
  (forall item title img_data pages page,
      getitem item "title" = Ok title ->
      net (image_info_request title) = Ok img_data ->
      has_path img_data "query" "pages" = Ok true ->
      get_path img_data "query" "pages" = Ok pages ->
      first_value pages = Ok page ->
      contains_key "imageinfo" page = Ok false ->
      image_of_hit net item = Ok None) /\
  (forall item title img_data pages page infos img_info,
      getitem item "title" = Ok title ->
      net (image_info_request title) = Ok img_data ->
      has_path img_data "query" "pages" = Ok true ->
      get_path img_data "query" "pages" = Ok pages ->
      first_value pages = Ok page ->
      contains_key "imageinfo" page = Ok true ->
      getitem page "imageinfo" = Ok infos ->
      getitem0 infos = Ok img_info ->
      image_of_hit net item
      = match image_entry item img_info with
        | Ok entry => Ok (Some entry)
        | Raise e => Raise e
        end) /\
  (forall item,
      image_of_hit net item = Ok None ->
      exists title img_data,
        getitem item "title" = Ok title /\
        net (image_info_request title) = Ok img_data /\
        (has_path img_data "query" "pages" = Ok false \/
         exists pages page,
           has_path img_data "query" "pages" = Ok true /\
           get_path img_data "query" "pages" = Ok pages /\
           first_value pages = Ok page /\
           contains_key "imageinfo" page = Ok false)) /\
  (forall images entry,
      get_commons_images net search_term limit = Ok images ->
      In entry images ->
      exists title url full_url width height description,
        entry = media_asset title url full_url width height description).
Proof.
  intros Hnet Hhas Hget Hiter.
  assert (Hfault : (exists item e, In item items /\
                                   image_of_hit net item = Raise e) ->
                   get_commons_images net search_term limit = Ok []).
  { intros H. destruct (images_loop_fault net items [] H) as [e' He'].
    unfold get_commons_images. rewrite Hnet. cbn [bind]. rewrite Hhas.
    cbn [bind]. rewrite Hget. cbn [bind]. rewrite Hiter. cbn [bind].
    now rewrite He'. }
  split; [| split; [| split; [| split; [| split; [| split; [| split]]]]]].
  - intros H. unfold get_commons_images. rewrite Hnet. cbn [bind].
    rewrite Hhas. cbn [bind]. rewrite Hget. cbn [bind]. rewrite Hiter.
    cbn [bind]. now rewrite (images_loop_resolved net items [] H).
  - exact Hfault.
  - intros item title e Hin Ht He. apply Hfault. exists item, e.
    split; [exact Hin |]. unfold image_of_hit. rewrite Ht. cbn [bind].
    now rewrite He.
  - intros item title img_data Ht Hd Hp. unfold image_of_hit.
    rewrite Ht. cbn [bind]. rewrite Hd. cbn [bind]. now rewrite Hp.
  - intros item title img_data pages page Ht Hd Hp Hg Hf Hc.
    unfold image_of_hit. rewrite Ht. cbn [bind]. rewrite Hd. cbn [bind].
    rewrite Hp. cbn [bind]. rewrite Hg. cbn [bind]. rewrite Hf. cbn [bind].
    now rewrite Hc.
  - intros item title img_data pages page infos img_info
      Ht Hd Hp Hg Hf Hc Hi H0.
    unfold image_of_hit. rewrite Ht. cbn [bind]. rewrite Hd. cbn [bind].
    rewrite Hp. cbn [bind]. rewrite Hg. cbn [bind]. rewrite Hf. cbn [bind].
    rewrite Hc. cbn [bind]. rewrite Hi. cbn [bind]. rewrite H0. cbn [bind].
    now destruct (image_entry item img_info).
  - intros item. unfold image_of_hit.
    destruct (getitem item "title") as [title | e] eqn:Ht; cbn [bind];
      [| discriminate].
    destruct (net (image_info_request title)) as [img_data | e] eqn:Hd;
      cbn [bind]; [| discriminate].
    destruct (has_path img_data "query" "pages") as [[|] | e] eqn:Hp;
      cbn [bind]; [| | discriminate].
    + destruct (get_path img_data "query" "pages") as [pages | e] eqn:Hg;
        cbn [bind]; [| discriminate].
      destruct (first_value pages) as [page | e] eqn:Hf; cbn [bind];
        [| discriminate].
      destruct (contains_key "imageinfo" page) as [[|] | e] eqn:Hc;
        cbn [bind]; [| | discriminate].
      * destruct (getitem page "imageinfo") as [infos | e]; cbn [bind];
          [| discriminate].
        destruct (getitem0 infos) as [img_info | e]; cbn [bind];
          [| discriminate].
        destruct (image_entry item img_info); cbn [bind]; discriminate.
      * intros _. exists title, img_data.
        split; [first [reflexivity | assumption] |].
        split; [first [reflexivity | assumption] |].
        right. exists pages, page. repeat split; assumption.
    + intros _. exists title, img_data.
      split; [first [reflexivity | assumption] |].
      split; [first [reflexivity | assumption] |]. now left.
  - intros images entry. unfold get_commons_images. rewrite Hnet.
    cbn [bind]. rewrite Hhas. cbn [bind]. rewrite Hget. cbn [bind].
    rewrite Hiter. cbn [bind].
    destruct (images_loop net items []) as [l | e] eqn:E; cbn [bind try_except].
    + intros [= <-] Hin. apply in_slice_to in Hin.
      apply (images_loop_shape net items [] l); [intros x [] | exact E | exact Hin].
    + intros [= <-] [].
Qed.

Lemma commons_images_per_hit_witness :
  get_commons_images two_lookups_empty "Taj Mahal" 3
  = Ok (slice_to
          (resolved two_lookups_empty
             [ hit "File:A.jpg"; hit "File:B.jpg"; hit "File:C.jpg";
               hit "File:D.jpg"; hit "File:E.jpg" ]) 3).
Proof.
  apply (proj1 (commons_images_per_hit two_lookups_empty "Taj Mahal" 3
                  five_hits
                  (JList [ hit "File:A.jpg"; hit "File:B.jpg";
                           hit "File:C.jpg"; hit "File:D.jpg";
                           hit "File:E.jpg" ])
                  [ hit "File:A.jpg"; hit "File:B.jpg"; hit "File:C.jpg";
                    hit "File:D.jpg"; hit "File:E.jpg" ]
                  eq_refl eq_refl eq_refl eq_refl)).
  intros item [<- | [<- | [<- | [<- | [<- | []]]]]];
    eexists; vm_compute; reflexivity.
Defined.

(** With limit 3 and five hits of which two lookups answer without image
    information, exactly the three resolved assets are returned. *)
Lemma three_of_five_resolved :
  get_commons_images two_lookups_empty "Taj Mahal" 3
  = Ok [ media_asset (JStr "A.jpg") (JStr "File:A.jpg") (JStr "File:A.jpg")
           (JNum 400) JNull (JStr "");
         media_asset (JStr "C.jpg") (JStr "File:C.jpg") (JStr "File:C.jpg")
           (JNum 400) JNull (JStr "");
         media_asset (JStr "E.jpg") (JStr "File:E.jpg") (JStr "File:E.jpg")
           (JNum 400) JNull (JStr "") ].
Proof. vm_compute. reflexivity. Qed.

End AggregatorClaims.

Section EndpointClaims.
Import PyStr Py WikimediaClient Api Notions Scenario.

(** C6, as the claim states it, fails: when the request of the geosearch
    faults, [get_nearby_heritage] returns no empty sequence, it raises the
    HTTP 500 of the endpoint. *)
Lemma nearby_fault_surfaces :
  get_nearby_heritage unreachable 0 0 10 "en"
  = Raise (HTTPException 500 "Nearby search service unavailable").
Proof. reflexivity. Qed.

(** C6, amended. The request of [get_nearby_heritage] carries the radius
    in meters (kilometers times 1000), a limit of 20 hits and namespace 0,
    and names no sort order. The places are returned in the order in
    which the answer lists them. An answer without [query]/[geosearch]
    gives the empty sequence; a fault of the request is surfaced as the
    HTTP 500 of the endpoint, which is the one thing the endpoint ever
    raises. *)
Theorem nearby_search_contract (net : network) (lat lon : Q) (radius : Z)
    (lang : string) :
  let req := get_nearby_heritage_request lat lon radius lang in
  params req
  = [ ("action", PStr "query"); ("format", PStr "json");
      ("list", PStr "geosearch"); ("gscoord", PCoord lat lon);
      ("gsradius", PInt (radius * 1000)); ("gslimit", PInt 20);
      ("gsnamespace", PInt 0) ] /\
  (forall e,
      net req = Raise e ->
      get_nearby_heritage net lat lon radius lang
      = Raise (HTTPException 500 "Nearby search service unavailable")) /\
  (forall data,
      net req = Ok data ->
      has_path data "query" "geosearch" = Ok false ->
      get_nearby_heritage net lat lon radius lang
      = Ok (nearby_record lat lon radius [])) /\
  (forall data places items entries,
      net req = Ok data ->
      has_path data "query" "geosearch" = Ok true ->
      get_path data "query" "geosearch" = Ok places ->
      iter places = Ok items ->
      map_result place_entry items = Ok entries ->
      get_nearby_heritage net lat lon radius lang
      = Ok (nearby_record lat lon radius entries) /\
      Forall2 (fun item entry => place_entry item = Ok entry) items entries) /\
  (forall e,
      get_nearby_heritage net lat lon radius lang = Raise e ->
      e = HTTPException 500 "Nearby search service unavailable").
Proof.
  cbv zeta. split; [reflexivity |]. split; [| split; [| split]];
    [| | | unfold get_nearby_heritage, try_reraise;
           destruct (bind _ _); [discriminate | now intros e' [= <-]]].
  - intros e H. unfold get_nearby_heritage. now rewrite H.
  - intros data H Hp. unfold get_nearby_heritage. rewrite H. cbn [bind].
    now rewrite Hp.
  - intros data places items entries H Hp Hg Hi Hm.
    split.
    + unfold get_nearby_heritage. rewrite H. cbn [bind]. rewrite Hp.
      cbn [bind]. rewrite Hg. cbn [bind]. rewrite Hi. cbn [bind].
      now rewrite Hm.
    + clear Hi. revert entries Hm.
      induction items as [|item rest IH]; intros entries.
      * intros [= <-]. constructor.
      * cbn [map_result].
        destruct (place_entry item) as [y | e] eqn:Ey; cbn [bind];
          [| discriminate].
        destruct (map_result place_entry rest) as [ys | e] eqn:Eys;
          cbn [bind]; [| discriminate].
        intros [= <-]. constructor; [exact Ey | now apply IH].
Qed.

Lemma nearby_search_contract_witness :
  get_nearby_heritage two_places 0 0 10 "hi"
  = Ok (nearby_record 0 0 10
          [ JDict [ ("id", JStr "Red_Fort"); ("title", JStr "Red Fort");
                    ("distance", JNum 900);
                    ("coordinates",
                      JDict [ ("lat", JNum 0); ("lon", JNum 0) ]) ];
            JDict [ ("id", JStr "Jama_Masjid"); ("title", JStr "Jama Masjid");
                    ("distance", JNum 300);
                    ("coordinates",
                      JDict [ ("lat", JNum 0); ("lon", JNum 0) ]) ] ]).
Proof.
  refine (proj1 (proj1 (proj2 (proj2 (proj2
            (nearby_search_contract two_places 0 0 10 "hi"))))
            _ _ _ _ eq_refl eq_refl eq_refl eq_refl eq_refl)).
Defined.

(** C7. The id that [search_locations] gives a title is the title with
    its spaces turned into underscores, and the title
    [get_heritage_content] shows for an id is the id with its underscores
    turned into spaces. For a title without underscores the second undoes
    the first; for a title with an underscore it does not. *)
Theorem slug_round_trip :
  (forall title,
      contains "_" title = false ->
      replace "_" " " (replace " " "_" title) = title) /\
  (exists title,
      contains "_" title = true /\
      replace "_" " " (replace " " "_" title) <> title) /\
  (forall wiki_result title,
      getitem wiki_result "title" = Ok (JStr title) ->
      exists entry,
        location_entry wiki_result = Ok entry /\
        getitem entry "id" = Ok (JStr (replace " " "_" title))) /\
  (forall net location_id lang r,
      get_heritage_content net location_id lang = Ok r ->
      getitem r "title" = Ok (JStr (replace "_" " " location_id))).
Proof.
  split; [exact unslug_slug |]. split; [| split].
  - exists "Fatehpur_Sikri". split; [reflexivity |].
    now apply unslug_slug_lossy.
  - intros wiki_result title H. unfold location_entry. rewrite H.
    cbn [bind str_replace].
    destruct wiki_result as [| | | | |d]; try discriminate H.
    cbn [get bind]. eexists. split; reflexivity.
  - intros net location_id lang r H. apply get_heritage_content_shape in H.
    destruct H as [x1 [x2 [x3 [x4 [x5 [x6 [x7 [x8 [x9 [x10 [-> _]]]]]]]]]]].
    reflexivity.
Qed.

Lemma slug_round_trip_witness :
  replace "_" " " (replace " " "_" "Taj Mahal") = "Taj Mahal".
Proof. apply (proj1 slug_round_trip "Taj Mahal"). reflexivity. Defined.

(** C8. In the four operations that take a language (article search,
    article content, travel content, geosearch), the host of the request
    is that of the language itself when it is one of en, hi, ta, te, bn,
    and that of en otherwise; and the one request of each operation is all
    the operation asks of the network. *)
Theorem unsupported_language_falls_back (lang : string) :
  (In lang ["en"; "hi"; "ta"; "te"; "bn"] -> host_language lang = lang) /\
  (~ In lang ["en"; "hi"; "ta"; "te"; "bn"] -> host_language lang = "en") /\
  (forall query limit,
      url (search_wikipedia_request query lang limit)
      = "https://" ++ host_language lang ++ ".wikipedia.org/w/api.php") /\
  (forall title,
      url (get_article_content_request title lang)
      = "https://" ++ host_language lang ++ ".wikipedia.org/w/api.php") /\
  (forall location,
      url (get_wikivoyage_content_request location lang)
      = "https://" ++ host_language lang ++ ".wikivoyage.org/w/api.php") /\
  (forall lat lon radius,
      url (get_nearby_heritage_request lat lon radius lang)
      = "https://" ++ host_language lang ++ ".wikipedia.org/w/api.php") /\
  (forall net1 net2 query limit,
      net1 (search_wikipedia_request query lang limit)
      = net2 (search_wikipedia_request query lang limit) ->
      search_wikipedia net1 query lang limit
      = search_wikipedia net2 query lang limit) /\
  (forall net1 net2 title,
      net1 (get_article_content_request title lang)
      = net2 (get_article_content_request title lang) ->
      get_article_content net1 title lang
      = get_article_content net2 title lang) /\
  (forall net1 net2 location,
      net1 (get_wikivoyage_content_request location lang)
      = net2 (get_wikivoyage_content_request location lang) ->
      get_wikivoyage_content net1 location lang
      = get_wikivoyage_content net2 location lang) /\
  (forall net1 net2 lat lon radius,
      net1 (get_nearby_heritage_request lat lon radius lang)
      = net2 (get_nearby_heritage_request lat lon radius lang) ->
      get_nearby_heritage net1 lat lon radius lang
      = get_nearby_heritage net2 lat lon radius lang).
Proof.
  split; [| split].
  - unfold host_language. intros H.
    destruct (existsb (String.eqb lang) _) eqn:E; [reflexivity |].
    assert (X : existsb (String.eqb lang) ["en"; "hi"; "ta"; "te"; "bn"]
                = true); [| congruence].
    apply existsb_exists. destruct H as [<- | [<- | [<- | [<- | [<- | []]]]]];
      eexists; (split; [| apply String.eqb_refl]); simpl; tauto.
  - unfold host_language. intros H.
    destruct (existsb (String.eqb lang) _) eqn:E; [| reflexivity].
    apply existsb_exists in E. destruct E as [k [Hk Ek]].
    apply String.eqb_eq in Ek. subst k. contradiction.
  - repeat split; intros;
      try (unfold search_wikipedia_request, get_article_content_request,
             get_wikivoyage_content_request, get_nearby_heritage_request;
           cbn [url]; now rewrite dict_get_language).
    + unfold search_wikipedia. congruence.
    + unfold get_article_content. congruence.
    + unfold get_wikivoyage_content. congruence.
    + unfold get_nearby_heritage. congruence.
Qed.

Lemma unsupported_language_falls_back_witness :
  host_language "fr" = "en" /\ host_language "ta" = "ta".
Proof.
  split.
  - apply (proj1 (proj2 (unsupported_language_falls_back "fr"))).
    simpl. intuition discriminate.
  - apply (proj1 (unsupported_language_falls_back "ta")). simpl. tauto.
Defined.

End EndpointClaims.

(* ================================================================= *)
(** * Further properties of the summarizer *)

Section SentenceFacts.
Import PyStr Py Re Summarizer Notions Shapes.

Lemma split_go_length (sep : string) (s : string) :
  forall k piece,
    In piece (split_go sep k s) -> String.length piece <= String.length s.
Proof.
  induction s as [|c r IH]; intros k piece; cbn [split_go].
  - intros [<- | []]. apply Nat.le_refl.
  - destruct k as [|k].
    + destruct (prefix sep (String c r)).
      * intros [<- | H]; [apply Nat.le_0_l |].
        apply IH in H. simpl. lia.
      * destruct (split_go sep 0 r) as [|h t] eqn:E.
        -- intros [<- | []]. simpl. lia.
        -- intros [<- | H].
           ++ assert (Hh : In h (split_go sep 0 r)) by (rewrite E; now left).
              apply IH in Hh. simpl. lia.
           ++ assert (Hp : In piece (split_go sep 0 r))
                by (rewrite E; now right).
              apply IH in Hp. simpl. lia.
    + intros H. apply IH in H. simpl. lia.
Qed.

Lemma length_lstrip_le (s : string) :
  String.length (lstrip s) <= String.length s.
Proof.
  induction s as [|c s IH]; simpl; [lia |].
  destruct (is_space c); simpl; lia.
Qed.

Lemma length_rstrip_le (s : string) :
  String.length (rstrip s) <= String.length s.
Proof.
  induction s as [|c s IH]; [simpl; lia |].
  rewrite rstrip_cons. destruct (rstrip s) as [|d r].
  - destruct (is_space c); simpl; lia.
  - simpl in *. lia.
Qed.

Lemma length_strip_le (s : string) :
  String.length (strip s) <= String.length s.
Proof.
  unfold strip. pose proof (length_rstrip_le (lstrip s)).
  pose proof (length_lstrip_le s). lia.
Qed.

Lemma filter_none {A : Type} (f : A -> bool) (l : list A) :
  (forall x, In x l -> f x = false) -> filter f l = [].
Proof.
  induction l as [|x l IH]; intros H; [reflexivity |].
  cbn [filter]. rewrite (H x (or_introl eq_refl)).
  apply IH. intros y Hy. apply H. now right.
Qed.

Lemma accepted_none (keywords : list string) (text : string) :
  (forall sentence, In sentence (split ". " text) ->
                    String.length (strip sentence) <= 20) ->
  accepted keywords text = [].
Proof.
  intros H. unfold accepted. rewrite filter_none; [reflexivity |].
  intros x Hx. unfold keeps. apply andb_false_iff. left.
  apply Nat.ltb_ge. now apply H.
Qed.

Lemma split_single (sep s : string) :
  contains sep s = false -> split sep s = [s].
Proof.
  unfold split. induction s as [|c r IH]; [reflexivity |].
  cbn [contains]. intros H. apply orb_false_iff in H. destruct H as [P C].
  cbn [split_go]. rewrite P, (IH C). reflexivity.
Qed.

Lemma year_pattern_not_digit (prev : option ascii) (c : ascii) (r : string) :
  is_digit c = false -> year_pattern prev (String c r) = None.
Proof.
  intros H. unfold year_pattern.
  destruct r as [|c2 [|c3 [|c4 rest]]]; try reflexivity.
  destruct (year_digits c c2 c3 c4) eqn:D.
  - unfold year_digits, is_digit in *.
    rewrite orb_true_iff, !andb_true_iff, !chr_spec, !in_range_spec in D.
    change (code "1") with 49%N in D. change (code "2") with 50%N in D.
    assert (X : in_range 48 57 c = true) by (apply in_range_spec; lia).
    congruence.
  - now rewrite andb_false_r.
Qed.

(** A pattern that needs a digit to start finds nothing where there is
    none. *)
Lemma findall_go_no_digit {A : Type}
    (m : option ascii -> string -> option (A * nat)) :
  (forall prev c r, is_digit c = false -> m prev (String c r) = None) ->
  forall s k prev,
    all_chars not_digit s = true -> findall_go m k prev s = [].
Proof.
  intros Hm. induction s as [|c r IH]; intros k prev H; [reflexivity |].
  cbn [all_chars] in H. apply andb_true_iff in H. destruct H as [Hc Hr].
  apply negb_true_iff in Hc. cbn [findall_go].
  destruct k as [|k]; [rewrite (Hm prev c r Hc) |]; now apply IH.
Qed.

(** X1. The sentences of a text, joined by the separator, are the text:
    the segmentation of the keyword extractors loses no character. *)
Theorem sentences_rejoin (text : string) :
  String.concat ". " (split ". " text) = text.
Proof. apply split_join. discriminate. Qed.

(** X2. A text in which no stripped sentence has more than 20 characters,
    and so every text of at most 20 characters, gives no heritage fact
    and no cultural note. *)
Theorem short_sentences_yield_nothing (text : string) :
  ((forall sentence, In sentence (split ". " text) ->
                     String.length (strip sentence) <= 20) ->
   extract_heritage_facts (JStr text) = Ok [] /\
   extract_cultural_info (JStr text) = Ok []) /\
  (String.length text <= 20 ->
   extract_heritage_facts (JStr text) = Ok [] /\
   extract_cultural_info (JStr text) = Ok []).
Proof.
  assert (G : (forall sentence, In sentence (split ". " text) ->
                                String.length (strip sentence) <= 20) ->
              extract_heritage_facts (JStr text) = Ok [] /\
              extract_cultural_info (JStr text) = Ok []).
  { intros H.
    rewrite extract_heritage_facts_str, extract_cultural_info_str.
    now rewrite !accepted_none. }
  split; [exact G |]. intros Hlen. apply G. intros sentence Hs.
  apply split_go_length in Hs. pose proof (length_strip_le sentence). lia.
Qed.

Lemma short_sentences_yield_nothing_witness :
  extract_heritage_facts (JStr "An ancient temple.") = Ok [] /\
  extract_cultural_info (JStr "An ancient temple.") = Ok [].
Proof.
  apply (proj2 (short_sentences_yield_nothing "An ancient temple.")).
  simpl. lia.
Defined.

(** X3. A text without the separator is one sentence: the keyword
    extractors return the stripped text with a period when it is accepted,
    and nothing otherwise. *)
Theorem text_without_separator (text : string) :
  contains ". " text = false ->
  extract_heritage_facts (JStr text)
  = Ok (if keeps heritage_keywords (strip text)
        then [strip text ++ "."] else []) /\
  extract_cultural_info (JStr text)
  = Ok (if keeps cultural_keywords (strip text)
        then [strip text ++ "."] else []).
Proof.
  intros H. rewrite extract_heritage_facts_str, extract_cultural_info_str.
  unfold accepted. rewrite (split_single _ _ H). cbn [filter].
  split.
  - now destruct (keeps heritage_keywords (strip text)).
  - now destruct (keeps cultural_keywords (strip text)).
Qed.

Lemma text_without_separator_witness :
  extract_heritage_facts (JStr "  The palace of Mysore is famous.")
  = Ok (if keeps heritage_keywords (strip "  The palace of Mysore is famous.")
        then [strip "  The palace of Mysore is famous." ++ "."] else []) /\
  extract_cultural_info (JStr "  The palace of Mysore is famous.")
  = Ok (if keeps cultural_keywords (strip "  The palace of Mysore is famous.")
        then [strip "  The palace of Mysore is famous." ++ "."] else []).
Proof.
  apply (text_without_separator "  The palace of Mysore is famous.").
  reflexivity.
Defined.

(** X4. A text without a decimal digit has an empty timeline. *)
Theorem timeline_needs_digits (text : string) :
  all_chars not_digit text = true ->
  extract_historical_dates (JStr text) = Ok [].
Proof.
  intros H. rewrite extract_historical_dates_str.
  unfold findall.
  rewrite (findall_go_no_digit year_pattern year_pattern_not_digit _ _ _ H).
  rewrite (findall_go_no_digit century_pattern century_pattern_not_digit
             _ _ _ H).
  reflexivity.
Qed.

Lemma timeline_needs_digits_witness :
  extract_historical_dates (JStr "Built in the nineteenth century.") = Ok [].
Proof.
  apply (timeline_needs_digits "Built in the nineteenth century.").
  reflexivity.
Defined.

(** X5. What the three extractors do with a value that need not be a
    string: a falsy value ([None], [""], [0], [[]], [{}], [False]) gives
    the empty list; a string never raises; a truthy value that is no
    string raises. *)
Theorem extractors_on_values (text : json) :
  (truthy text = false ->
   extract_heritage_facts text = Ok [] /\
   extract_cultural_info text = Ok [] /\
   extract_historical_dates text = Ok []) /\
  ((exists s, text = JStr s) ->
   exists facts notes timeline,
     extract_heritage_facts text = Ok facts /\
     extract_cultural_info text = Ok notes /\
     extract_historical_dates text = Ok timeline) /\
  (truthy text = true -> not_str text ->
   extract_heritage_facts text = Raise Exception /\
   extract_cultural_info text = Raise Exception /\
   extract_historical_dates text = Raise Exception).
Proof.
  split; [| split].
  - intros H. unfold extract_heritage_facts, extract_cultural_info,
      extract_historical_dates. now rewrite H.
  - intros [s ->]. eexists _, _, _.
    rewrite extract_heritage_facts_str, extract_cultural_info_str,
      extract_historical_dates_str. repeat split.
  - intros H N. unfold extract_heritage_facts, extract_cultural_info,
      extract_historical_dates. rewrite H. cbn [negb].
    destruct text; try (repeat split; reflexivity).
    exfalso. now apply (N s).
Qed.

Lemma extractors_on_values_witness :
  extract_heritage_facts (JNum 5) = Raise Exception /\
  extract_cultural_info (JNum 5) = Raise Exception /\
  extract_historical_dates (JNum 5) = Raise Exception.
Proof.
  apply (proj2 (proj2 (extractors_on_values (JNum 5)))).
  - reflexivity.
  - intros s. discriminate.
Defined.

Lemma ok_inj {A : Type} (a b : A) : Ok a = Ok b -> a = b.
Proof. congruence. Qed.

(** Whatever the value, the extractors return at most 5 facts, 3 notes
    and 5 timeline entries. *)
Lemma summary_bounds (text : json) :
  (forall facts, extract_heritage_facts text = Ok facts ->
                 length facts <= 5) /\
  (forall notes, extract_cultural_info text = Ok notes ->
                 length notes <= 3) /\
  (forall timeline, extract_historical_dates text = Ok timeline ->
                    length timeline <= 5).
Proof.
  destruct text as [| b | q | s | l | d];
    try (unfold extract_heritage_facts, extract_cultural_info,
           extract_historical_dates;
         destruct (negb (truthy _)); cbn [str_split re_subject bind];
         repeat split; intros out; try discriminate;
         intros [= <-]; simpl; lia).
  rewrite extract_heritage_facts_str, extract_cultural_info_str,
    extract_historical_dates_str. unfold timeline_in_order.
  repeat split; intros out E; apply ok_inj in E; rewrite <- E;
    apply length_firstn_le.
Qed.

End SentenceFacts.

(* ================================================================= *)
(** * Further properties of the client and the endpoints *)

Section IdFacts.
Import PyStr Py Notions Shapes.

Lemma map_chars_length (f : ascii -> ascii) (s : string) :
  String.length (map_chars f s) = String.length s.
Proof. induction s as [|c s IH]; simpl; [reflexivity | now rewrite IH]. Qed.

(** After every [a] is replaced by another character, no [a] is left. *)
Lemma replace_char_gone (a b : ascii) (s : string) :
  a <> b -> contains (String a "") (replace (String a "") (String b "") s)
            = false.
Proof.
  intros Hab. rewrite replace_char.
  induction s as [|c s IH]; [reflexivity |].
  cbn [map_chars]. rewrite contains_char_cons, IH, orb_false_r.
  destruct (Ascii.eqb a c) eqn:E; apply Ascii.eqb_neq; [exact Hab |].
  now apply Ascii.eqb_neq.
Qed.

(** Replacing [a] by [b] and then [b] by [a] gives the text back when it
    held no [b]. *)
Lemma replace_char_back (a b : ascii) (s : string) :
  contains (String b "") s = false ->
  replace (String b "") (String a "") (replace (String a "") (String b "") s)
  = s.
Proof.
  rewrite !replace_char. induction s as [|c s IH]; [reflexivity |].
  rewrite contains_char_cons, orb_false_iff. intros [Hc Hs].
  cbn [map_chars]. rewrite (IH Hs). f_equal.
  destruct (Ascii.eqb a c) eqn:E.
  - apply Ascii.eqb_eq in E. subst c. now rewrite Ascii.eqb_refl.
  - now rewrite Hc.
Qed.

Lemma replace_go_skip (old new p s : string) :
  replace_go old new (String.length p) (p ++ s) = replace_go old new 0 s.
Proof. induction p as [|c p IH]; [reflexivity | exact IH]. Qed.

(** A text without [old] is left alone. *)
Lemma replace_absent (old new s : string) :
  contains old s = false -> replace old new s = s.
Proof.
  unfold replace. induction s as [|c r IH]; [reflexivity |].
  cbn [contains]. intros H. apply orb_false_iff in H. destruct H as [P C].
  cbn [replace_go]. now rewrite P, (IH C).
Qed.

(** A leading [old] is replaced, and the scan resumes after it. *)
Lemma replace_prefix (old new s : string) :
  old <> "" -> replace old new (old ++ s) = new ++ replace old new s.
Proof.
  intros H. destruct old as [|c old']; [contradiction |].
  unfold replace. cbn [append replace_go].
  assert (P : prefix (String c old') (String c (old' ++ s)) = true)
    by (apply prefix_spec; now exists s).
  rewrite P. cbn [String.length Nat.sub]. rewrite Nat.sub_0_r.
  now rewrite replace_go_skip.
Qed.

(** X6. The ids that [search_locations] and [get_nearby_heritage] make of a
    title hold no space and are as long as the title; the title that
    [get_heritage_content] makes of an id holds no underscore; and an id
    is stable: the title shown for it gives the same id again. *)
Theorem ids_have_no_space (title : string) :
  contains " " (replace " " "_" title) = false /\
  String.length (replace " " "_" title) = String.length title /\
  contains "_" (replace "_" " " title) = false /\
  replace " " "_" (replace "_" " " (replace " " "_" title))
  = replace " " "_" title.
Proof.
  split; [apply replace_char_gone; discriminate |].
  split; [rewrite replace_char; apply map_chars_length |].
  split; [apply replace_char_gone; discriminate |].
  apply replace_char_back. apply replace_char_gone. discriminate.
Qed.

End IdFacts.

Section ClientExtras.
Import PyStr Py Summarizer WikimediaClient Api Notions Shapes Scenario Upstream.

Lemma map_result_forall2 {A B : Type} (f : A -> result B) (xs : list A) :
  forall ys, map_result f xs = Ok ys ->
             Forall2 (fun x y => f x = Ok y) xs ys.
Proof.
  induction xs as [|x rest IH]; intros ys.
  - intros [= <-]. constructor.
  - cbn [map_result].
    destruct (f x) as [y | e] eqn:Ey; cbn [bind]; [| discriminate].
    destruct (map_result f rest) as [ys' | e] eqn:Eys; cbn [bind];
      [| discriminate].
    intros [= <-]. constructor; [exact Ey | now apply IH].
Qed.

Lemma map_result_fault {A B : Type} (f : A -> result B) (xs : list A) :
  (exists x e, In x xs /\ f x = Raise e) ->
  exists e, map_result f xs = Raise e.
Proof.
  induction xs as [|x rest IH]; intros [y [e [Hy He]]]; [destruct Hy |].
  cbn [map_result]. destruct (f x) as [v | e'] eqn:Ex; cbn [bind];
    [| now exists e'].
  destruct Hy as [-> | Hy]; [congruence |].
  destruct (IH (ex_intro _ y (ex_intro _ e (conj Hy He)))) as [e'' ->].
  now exists e''.
Qed.

Lemma forall2_impl {A B : Type} (P Q : A -> B -> Prop) (xs : list A)
    (ys : list B) :
  (forall x y, P x y -> Q x y) -> Forall2 P xs ys -> Forall2 Q xs ys.
Proof. intros H. induction 1; constructor; auto. Qed.

Lemma entry_specs (item entry : json) :
  (location_entry item = Ok entry <-> location_of item entry) /\
  (place_entry item = Ok entry <-> place_of item entry).
Proof.
  split; split.
  - unfold location_entry, location_of.
    destruct item as [| | | | | d]; try discriminate. cbn [getitem].
    destruct (lookup "title" d) as [t |] eqn:Et; cbn [bind];
      [| discriminate].
    destruct t as [| | | title | |]; try discriminate.
    cbn [str_replace bind get]. intros [= <-]. now exists d, title.
  - intros [d [title [-> [Et ->]]]]. unfold location_entry.
    cbn [getitem]. rewrite Et. reflexivity.
  - unfold place_entry, place_of.
    destruct item as [| | | | | d]; try discriminate. cbn [getitem].
    destruct (lookup "title" d) as [t |] eqn:Et; cbn [bind];
      [| discriminate].
    destruct t as [| | | title | |]; try discriminate.
    cbn [str_replace bind get]. intros [= <-]. now exists d, title.
  - intros [d [title [-> [Et ->]]]]. unfold place_entry.
    cbn [getitem]. rewrite Et. reflexivity.
Qed.

(** X7. The entry made of a hit. [search_locations] makes an entry of a hit
    exactly when the hit is a dict whose title is a string, and a missing
    snippet is the empty string; [get_nearby_heritage] likewise, and a
    missing distance, latitude or longitude is 0. *)
Theorem entries_of_hits (item entry : json) :
  (location_entry item = Ok entry <-> location_of item entry) /\
  (place_entry item = Ok entry <-> place_of item entry).
Proof. apply entry_specs. Qed.

Lemma search_wikipedia_fault (net : network) (query lang : string)
    (limit : Z) (e : exn) :
  net (search_wikipedia_request query lang limit) = Raise e ->
  search_wikipedia net query lang limit = Ok (JList []).
Proof. unfold search_wikipedia. now intros ->. Qed.

Lemma search_wikipedia_no_path (net : network) (query lang : string)
    (limit : Z) (data : json) :
  net (search_wikipedia_request query lang limit) = Ok data ->
  has_path data "query" "search" = Ok false ->
  search_wikipedia net query lang limit = Ok (JList []).
Proof. unfold search_wikipedia. intros -> H. cbn [bind]. now rewrite H. Qed.

(** X8. [search_wikipedia] never raises: it returns the empty list, or the
    value the answer holds under [query]/[search], whole, however many
    hits were asked for; a fault of the request gives the empty list. *)
Theorem search_wikipedia_result (net : network) (query lang : string)
    (limit : Z) :
  (search_wikipedia net query lang limit = Ok (JList []) \/
   exists data hits,
     net (search_wikipedia_request query lang limit) = Ok data /\
     get_path data "query" "search" = Ok hits /\
     search_wikipedia net query lang limit = Ok hits) /\
  (forall e,
      net (search_wikipedia_request query lang limit) = Raise e ->
      search_wikipedia net query lang limit = Ok (JList [])) /\
  (forall data,
      net (search_wikipedia_request query lang limit) = Ok data ->
      has_path data "query" "search" = Ok false ->
      search_wikipedia net query lang limit = Ok (JList [])).
Proof.
  split; [| split].
  - unfold search_wikipedia.
    destruct (net _) as [data | e]; cbn [bind try_except]; [| now left].
    destruct (has_path data "query" "search") as [[|] | e];
      cbn [bind try_except]; try (now left).
    destruct (get_path data "query" "search") as [hits | e] eqn:G;
      cbn [try_except]; [| now left].
    right. now exists data, hits.
  - apply search_wikipedia_fault.
  - apply search_wikipedia_no_path.
Qed.

(** X9. [get_article_content] and [get_wikivoyage_content] never raise:
    each returns the empty dict, or the first page of the answer. *)
Theorem page_fetch_result (net : network) (title lang : string) :
  (get_article_content net title lang = Ok (JDict []) \/
   exists data pages page,
     net (get_article_content_request title lang) = Ok data /\
     get_path data "query" "pages" = Ok pages /\
     first_value pages = Ok page /\
     get_article_content net title lang = Ok page) /\
  (get_wikivoyage_content net title lang = Ok (JDict []) \/
   exists data pages page,
     net (get_wikivoyage_content_request title lang) = Ok data /\
     get_path data "query" "pages" = Ok pages /\
     first_value pages = Ok page /\
     get_wikivoyage_content net title lang = Ok page).
Proof.
  unfold get_article_content, get_wikivoyage_content. split.
  - destruct (net _) as [data | e]; cbn [bind try_except]; [| now left].
    destruct (has_path data "query" "pages") as [[|] | e];
      cbn [bind try_except]; try (now left).
    destruct (get_path data "query" "pages") as [pages | e] eqn:G;
      cbn [bind try_except]; [| now left].
    destruct (first_value pages) as [page | e] eqn:F;
      cbn [bind try_except]; [| now left].
    right. now exists data, pages, page.
  - destruct (net _) as [data | e]; cbn [bind try_except]; [| now left].
    destruct (has_path data "query" "pages") as [[|] | e];
      cbn [bind try_except]; try (now left).
    destruct (get_path data "query" "pages") as [pages | e] eqn:G;
      cbn [bind try_except]; [| now left].
    destruct (first_value pages) as [page | e] eqn:F;
      cbn [bind try_except]; [| now left].
    right. now exists data, pages, page.
Qed.

Lemma get_commons_images_shape (net : network) (search_term : string)
    (limit : Z) (images : list json) (entry : json) :
  get_commons_images net search_term limit = Ok images ->
  In entry images ->
  exists title url full_url width height description,
    entry = media_asset title url full_url width height description.
Proof.
  unfold get_commons_images.
  destruct (net _) as [data | e]; cbn [bind try_except];
    [| intros [= <-] []].
  destruct (has_path data "query" "search") as [[|] | e];
    cbn [bind try_except]; try (intros [= <-] []).
  destruct (get_path data "query" "search") as [hits | e];
    cbn [bind try_except]; [| intros [= <-] []].
  destruct (iter hits) as [items | e]; cbn [bind try_except];
    [| intros [= <-] []].
  destruct (images_loop net items []) as [l | e] eqn:E;
    cbn [bind try_except]; [| intros [= <-] []].
  intros H Hin. apply ok_inj in H. subst images. apply in_slice_to in Hin.
  apply (images_loop_shape net items [] l); [intros x [] | exact E | exact Hin].
Qed.

(** X10. For every network, search term and limit, [get_commons_images]
    never raises; with a limit that is not negative it returns at most
    that many entries, and every entry has its six fields. *)
Theorem commons_images_bounded (net : network) (search_term : string)
    (limit : Z) :
  exists images,
    get_commons_images net search_term limit = Ok images /\
    ((0 <= limit)%Z -> length images <= Z.to_nat limit) /\
    (forall entry, In entry images ->
       exists title url full_url width height description,
         entry = media_asset title url full_url width height description).
Proof.
  destruct (try_except_ok
              (data <- net (get_commons_images_request search_term limit) ;;
               found <- has_path data "query" "search" ;;
               if found then
                 hits <- get_path data "query" "search" ;;
                 items <- iter hits ;;
                 images <- images_loop net items [] ;;
                 Ok (slice_to images limit)
               else Ok []) []) as [images H].
  change (get_commons_images net search_term limit = Ok images) in H.
  exists images. split; [exact H |]. split.
  - intros Hl. now apply (get_commons_images_length net search_term).
  - intros entry. now apply (get_commons_images_shape net search_term limit).
Qed.

End ClientExtras.

Section EndpointExtras.
Import PyStr Py Summarizer WikimediaClient Api Notions Shapes Scenario Upstream.

(** X11. When [search_locations] returns, its record echoes the query and
    the language as asked (also a language whose host fell back to en),
    and lists one entry for each hit of [search_wikipedia], in the order
    of the hits, with [total] their number: the limit is sent upstream but
    the hits are not cut to it. *)
Theorem search_locations_shape (net : network) (query lang : string)
    (limit : Z) (r : json) :
  search_locations net query lang limit = Ok r ->
  exists hits items locations,
    search_wikipedia net query lang limit = Ok hits /\
    iter hits = Ok items /\
    Forall2 location_of items locations /\
    r = search_record query lang locations.
Proof.
  unfold search_locations, try_reraise.
  destruct (search_wikipedia net query lang limit) as [hits | e] eqn:W;
    cbn [bind]; [| discriminate].
  destruct (iter hits) as [items | e] eqn:I; cbn [bind]; [| discriminate].
  destruct (map_result location_entry items) as [locations | e] eqn:M;
    cbn [bind]; [| discriminate].
  intros H. apply ok_inj in H. subst r.
  exists hits, items, locations.
  split; [reflexivity |]. split; [exact I |]. split; [| reflexivity].
  apply map_result_forall2 in M.
  apply (forall2_impl _ _ _ _ (fun x y => proj1 (proj1 (entry_specs x y))) M).
Qed.

Lemma search_locations_shape_witness :
  exists locations,
    search_locations two_hits "fort" "fr" 1
    = Ok (search_record "fort" "fr" locations) /\
    length locations = 2.
Proof.
  destruct (search_locations two_hits "fort" "fr" 1) as [r | e] eqn:E.
  - destruct (search_locations_shape _ _ _ _ r E)
      as [hits [items [locations [Hw [Hi [Hf ->]]]]]].
    exists locations. split; [reflexivity |].
    vm_compute in Hw. apply ok_inj in Hw. subst hits.
    vm_compute in Hi. apply ok_inj in Hi. subst items.
    inversion Hf as [| ? ? ? ? _ Hf']; subst.
    inversion Hf' as [| ? ? ? ? _ Hf'']; subst.
    inversion Hf''. reflexivity.
  - vm_compute in E. discriminate E.
Defined.

(** X12. A fault of the search request is no error of [search_locations]:
    the client has turned it into the empty list, and the endpoint answers
    with no location and a total of 0; so does an answer without
    [query]/[search]. *)
Theorem search_locations_fault_is_empty (net : network)
    (query lang : string) (limit : Z) :
  (forall e,
      net (search_wikipedia_request query lang limit) = Raise e ->
      search_locations net query lang limit
      = Ok (search_record query lang [])) /\
  (forall data,
      net (search_wikipedia_request query lang limit) = Ok data ->
      has_path data "query" "search" = Ok false ->
      search_locations net query lang limit
      = Ok (search_record query lang [])).
Proof.
  split.
  - intros e H. unfold search_locations.
    rewrite (search_wikipedia_fault net query lang limit e H).
    reflexivity.
  - intros data H Hp. unfold search_locations.
    rewrite (search_wikipedia_no_path net query lang limit data H Hp).
    reflexivity.
Qed.

Lemma search_locations_fault_is_empty_witness :
  search_locations unreachable "Hampi" "ta" 5
  = Ok (search_record "Hampi" "ta" []).
Proof.
  apply (proj1 (search_locations_fault_is_empty unreachable "Hampi" "ta" 5)
           Exception).
  reflexivity.
Defined.

(** X13. One hit without a title fails the whole search: [search_locations]
    raises its HTTP 500 and returns no entry of the other hits. That HTTP
    500 is the only thing the endpoint raises. *)
Theorem search_locations_untitled_hit (net : network) (query lang : string)
    (limit : Z) (hits : json) (items : list json) :
  search_wikipedia net query lang limit = Ok hits ->
  iter hits = Ok items ->
  ((exists item e, In item items /\ getitem item "title" = Raise e) ->
   search_locations net query lang limit
   = Raise (HTTPException 500 "Search service unavailable")) /\
  (forall e,
      search_locations net query lang limit = Raise e ->
      e = HTTPException 500 "Search service unavailable").
Proof.
  intros Hw Hi. unfold search_locations. rewrite Hw. cbn [bind].
  rewrite Hi. cbn [bind]. split.
  - intros [item [e [Hin He]]].
    assert (F : exists x e', In x items /\ location_entry x = Raise e').
    { exists item, e. split; [exact Hin |].
      unfold location_entry. now rewrite He. }
    apply map_result_fault in F. destruct F as [e' ->]. reflexivity.
  - intros e. destruct (map_result location_entry items); cbn [bind try_reraise];
      [discriminate | now intros [= <-]].
Qed.

Lemma search_locations_untitled_hit_witness :
  search_locations untitled_hit "fort" "en" 10
  = Raise (HTTPException 500 "Search service unavailable").
Proof.
  refine (proj1 (search_locations_untitled_hit untitled_hit "fort" "en" 10
                   _ _ eq_refl eq_refl) _).
  exists (JDict [ ("snippet", JStr "no title") ]), Exception.
  split; [simpl; tauto | reflexivity].
Defined.

(** X14. One place without a title fails the whole geosearch:
    [get_nearby_heritage] raises its HTTP 500; and when it returns, every
    place listed is the entry of the upstream place at its position. *)
Theorem nearby_untitled_place (net : network) (lat lon : Q) (radius : Z)
    (lang : string) (data hits : json) (items : list json) :
  net (get_nearby_heritage_request lat lon radius lang) = Ok data ->
  has_path data "query" "geosearch" = Ok true ->
  get_path data "query" "geosearch" = Ok hits ->
  iter hits = Ok items ->
  ((exists item e, In item items /\ getitem item "title" = Raise e) ->
   get_nearby_heritage net lat lon radius lang
   = Raise (HTTPException 500 "Nearby search service unavailable")) /\
  (forall r,
      get_nearby_heritage net lat lon radius lang = Ok r ->
      exists places,
        Forall2 place_of items places /\
        r = nearby_record lat lon radius places).
Proof.
  intros Hn Hp Hg Hi. unfold get_nearby_heritage. rewrite Hn. cbn [bind].
  rewrite Hp. cbn [bind]. rewrite Hg. cbn [bind]. rewrite Hi. cbn [bind].
  split.
  - intros [item [e [Hin He]]].
    assert (F : exists x e', In x items /\ place_entry x = Raise e').
    { exists item, e. split; [exact Hin |].
      unfold place_entry. now rewrite He. }
    apply map_result_fault in F. destruct F as [e' ->]. reflexivity.
  - intros r. destruct (map_result place_entry items) as [places | e] eqn:M;
      cbn [bind try_reraise]; [| discriminate].
    intros H. apply ok_inj in H. subst r. exists places.
    split; [| reflexivity]. apply map_result_forall2 in M.
    apply (forall2_impl _ _ _ _
             (fun x y => proj1 (proj2 (entry_specs x y))) M).
Qed.

Lemma nearby_untitled_place_witness :
  get_nearby_heritage untitled_place 0 0 5 "en"
  = Raise (HTTPException 500 "Nearby search service unavailable").
Proof.
  refine (proj1 (nearby_untitled_place untitled_place 0 0 5 "en"
                   _ _ _ eq_refl eq_refl eq_refl eq_refl) _).
  exists (JDict [ ("dist", JNum 300) ]), Exception.
  split; [simpl; tauto | reflexivity].
Defined.

End EndpointExtras.

Section HeritageExtras.
Import PyStr Py Summarizer WikimediaClient Api Notions Shapes Scenario Upstream.

Lemma commons_images_ok (net : network) (search_term : string) (limit : Z) :
  exists images, get_commons_images net search_term limit = Ok images.
Proof. unfold get_commons_images. apply try_except_ok. Qed.

Lemma category_title (cat c : json) :
  get cat "title" (JStr "") = Ok c ->
  exists dc, cat = JDict dc /\ c = or_default dc "title" (JStr "").
Proof.
  destruct cat as [| | | | | dc]; try discriminate.
  intros H. apply ok_inj in H. now exists dc.
Qed.

(** What [heritage_data] returns when it returns, field by field. *)
Lemma heritage_data_fields (location_id location_title lang : string)
    (wiki_content : result json) (images : result (list json))
    (wikivoyage_content : result json) (r : json) :
  heritage_data location_id location_title lang
    wiki_content images wikivoyage_content = Ok r ->
  exists dw dv cats categories facts notes timeline,
    unless_exception wiki_content (JDict []) = JDict dw /\
    unless_exception wikivoyage_content (JDict []) = JDict dv /\
    iter (or_default dw "categories" (JList [])) = Ok cats /\
    Forall2 (fun cat c => exists dc, cat = JDict dc /\
                                     c = or_default dc "title" (JStr ""))
            cats categories /\
    extract_heritage_facts (or_default dw "extract" (JStr "")) = Ok facts /\
    extract_cultural_info (or_default dw "extract" (JStr "")) = Ok notes /\
    extract_historical_dates (or_default dw "extract" (JStr ""))
    = Ok timeline /\
    r = composite_record location_id location_title lang
          (or_default dw "extract" (JStr ""))
          (or_default dw "coordinates" (JList []))
          categories
          (or_default dw "pageimage" (JStr ""))
          (or_default dv "extract" (JStr ""))
          (or_default dv "pageimage" (JStr ""))
          (unless_exception images [])
          facts notes timeline.
Proof.
  unfold heritage_data.
  destruct (unless_exception wiki_content (JDict [])) as [| | | | | dw];
    try discriminate.
  destruct (unless_exception wikivoyage_content (JDict []))
    as [| | | | | dv].
  all: cbn [get bind]; fold (or_default dw "categories" (JList []));
    fold (or_default dw "extract" (JStr ""));
    fold (or_default dw "coordinates" (JList []));
    fold (or_default dw "pageimage" (JStr "")).
  all: destruct (iter (or_default dw "categories" (JList [])))
    as [cats | e] eqn:I; cbn [bind]; try discriminate.
  all: destruct (map_result (fun cat => get cat "title" (JStr "")) cats)
    as [categories | e] eqn:M; cbn [bind]; try discriminate.
  fold (or_default dv "extract" (JStr "")).
  fold (or_default dv "pageimage" (JStr "")).
  destruct (extract_heritage_facts (or_default dw "extract" (JStr "")))
    as [facts | e] eqn:F; cbn [bind]; [| discriminate].
  destruct (extract_cultural_info (or_default dw "extract" (JStr "")))
    as [notes | e] eqn:N; cbn [bind]; [| discriminate].
  destruct (extract_historical_dates (or_default dw "extract" (JStr "")))
    as [timeline | e] eqn:T; cbn [bind]; [| discriminate].
  intros H. apply ok_inj in H. subst r.
  exists dw, dv, cats, categories, facts, notes, timeline.
  split; [reflexivity |]. split; [reflexivity |]. split; [exact I |].
  split; [| now repeat split].
  apply map_result_forall2 in M.
  exact (forall2_impl _ _ _ _ category_title M).
Qed.

(** The record of [get_heritage_content], field by field. *)
Lemma get_heritage_content_fields (net : network) (location_id lang : string)
    (r : json) :
  get_heritage_content net location_id lang = Ok r ->
  exists dw dv images cats categories facts notes timeline,
    get_article_content net (replace "_" " " location_id) lang
    = Ok (JDict dw) /\
    get_wikivoyage_content net (replace "_" " " location_id) lang
    = Ok (JDict dv) /\
    get_commons_images net (replace "_" " " location_id) 10 = Ok images /\
    iter (or_default dw "categories" (JList [])) = Ok cats /\
    Forall2 (fun cat c => exists dc, cat = JDict dc /\
                                     c = or_default dc "title" (JStr ""))
            cats categories /\
    extract_heritage_facts (or_default dw "extract" (JStr "")) = Ok facts /\
    extract_cultural_info (or_default dw "extract" (JStr "")) = Ok notes /\
    extract_historical_dates (or_default dw "extract" (JStr ""))
    = Ok timeline /\
    r = composite_record location_id (replace "_" " " location_id) lang
          (or_default dw "extract" (JStr ""))
          (or_default dw "coordinates" (JList []))
          categories
          (or_default dw "pageimage" (JStr ""))
          (or_default dv "extract" (JStr ""))
          (or_default dv "pageimage" (JStr ""))
          images facts notes timeline.
Proof.
  unfold get_heritage_content, try_reraise.
  destruct (heritage_data _ _ _ _ _ _) as [r' | e] eqn:E; [| discriminate].
  intros H. apply ok_inj in H. subst r'.
  apply heritage_data_fields in E.
  destruct E as [dw [dv [cats [categories [facts [notes [timeline
    [Hw [Hv [Hi [Hc [Hf [Hn [Ht ->]]]]]]]]]]]]]].
  destruct (commons_images_ok net (replace "_" " " location_id) 10)
    as [images Himg].
  destruct (get_article_content net (replace "_" " " location_id) lang)
    as [w | e] eqn:Ew; cbn [unless_exception] in Hw;
    [| exfalso; revert Ew; unfold get_article_content;
       destruct (bind _ _); discriminate].
  destruct (get_wikivoyage_content net (replace "_" " " location_id) lang)
    as [v | e] eqn:Ev; cbn [unless_exception] in Hv;
    [| exfalso; revert Ev; unfold get_wikivoyage_content;
       destruct (bind _ _); discriminate].
  subst w v. rewrite Himg. cbn [unless_exception].
  exists dw, dv, images, cats, categories, facts, notes, timeline.
  now repeat split.
Qed.

(** X15. When [get_heritage_content] returns, both the article page and the
    travel page were dicts, and the record is made of them field by
    field: each field of the record is the value the page has for it, or
    the empty value of the field when the page has none; the categories
    are the titles of the page's categories, in order; the images are
    what the media search returned; and the three summaries are derived
    from the article extract alone. *)
Theorem heritage_record_fields (net : network) (location_id lang : string)
    (r : json) :
  get_heritage_content net location_id lang = Ok r ->
  exists dw dv images cats categories facts notes timeline,
    get_article_content net (replace "_" " " location_id) lang
    = Ok (JDict dw) /\
    get_wikivoyage_content net (replace "_" " " location_id) lang
    = Ok (JDict dv) /\
    get_commons_images net (replace "_" " " location_id) 10 = Ok images /\
    iter (or_default dw "categories" (JList [])) = Ok cats /\
    Forall2 (fun cat c => exists dc, cat = JDict dc /\
                                     c = or_default dc "title" (JStr ""))
            cats categories /\
    extract_heritage_facts (or_default dw "extract" (JStr "")) = Ok facts /\
    extract_cultural_info (or_default dw "extract" (JStr "")) = Ok notes /\
    extract_historical_dates (or_default dw "extract" (JStr ""))
    = Ok timeline /\
    r = composite_record location_id (replace "_" " " location_id) lang
          (or_default dw "extract" (JStr ""))
          (or_default dw "coordinates" (JList []))
          categories
          (or_default dw "pageimage" (JStr ""))
          (or_default dv "extract" (JStr ""))
          (or_default dv "pageimage" (JStr ""))
          images facts notes timeline.
Proof. apply get_heritage_content_fields. Qed.

Lemma heritage_record_fields_witness :
  exists r dv,
    get_heritage_content only_travel "Agra" "en" = Ok r /\
    get_wikivoyage_content only_travel "Agra" "en" = Ok (JDict dv) /\
    getitem r "travel_info"
    = Ok (JDict [ ("extract", or_default dv "extract" (JStr ""));
                  ("page_image", or_default dv "pageimage" (JStr "")) ]).
Proof.
  destruct (get_heritage_content only_travel "Agra" "en") as [r | e] eqn:E.
  - destruct (heritage_record_fields _ _ _ r E)
      as [dw [dv [images [cats [categories [facts [notes [timeline
           [Hw [Hv [Hi [_ [_ [_ [_ [_ ->]]]]]]]]]]]]]]]].
    eexists _, dv. split; [reflexivity |]. split; [exact Hv |]. reflexivity.
  - vm_compute in E. discriminate E.
Defined.

(** X16. A failure of the article service alone leaves the rest of the
    record: with the article request faulting, the travel page a dict and
    the media search returning [images], the endpoint returns the record
    with the empty Wikipedia part and empty summaries, the travel part of
    the travel page and the images. *)
Theorem heritage_partial_failure (net : network) (location_id lang : string)
    (e : exn) (dv : list (string * json)) (images : list json) :
  net (get_article_content_request (replace "_" " " location_id) lang)
  = Raise e ->
  get_wikivoyage_content net (replace "_" " " location_id) lang
  = Ok (JDict dv) ->
  get_commons_images net (replace "_" " " location_id) 10 = Ok images ->
  get_heritage_content net location_id lang
  = Ok (composite_record location_id (replace "_" " " location_id) lang
          (JStr "") (JList []) [] (JStr "")
          (or_default dv "extract" (JStr ""))
          (or_default dv "pageimage" (JStr ""))
          images [] [] []).
Proof.
  intros Ha Hv Hi. unfold get_heritage_content.
  rewrite (get_article_content_fault net _ _ e Ha), Hv, Hi. reflexivity.
Qed.

Lemma heritage_partial_failure_witness :
  get_heritage_content only_travel "Agra" "en"
  = Ok (composite_record "Agra" "Agra" "en"
          (JStr "") (JList []) [] (JStr "")
          (JStr "Agra is a city on the Yamuna.") (JStr "")
          [] [] [] []).
Proof.
  exact (heritage_partial_failure only_travel "Agra" "en" Exception
           [ ("extract", JStr "Agra is a city on the Yamuna.") ] []
           eq_refl eq_refl eq_refl).
Defined.

(** X17. An article page or a travel page that is no dict (a list, a string,
    a number) fails the endpoint: [get_heritage_content] raises its HTTP
    500, which is the only thing it ever raises. *)
Theorem heritage_page_not_dict (net : network) (location_id lang : string) :
  (forall w,
      get_article_content net (replace "_" " " location_id) lang = Ok w ->
      not_dict w ->
      get_heritage_content net location_id lang
      = Raise (HTTPException 500 "Heritage content service unavailable")) /\
  (forall w dw,
      get_article_content net (replace "_" " " location_id) lang
      = Ok (JDict dw) ->
      get_wikivoyage_content net (replace "_" " " location_id) lang = Ok w ->
      not_dict w ->
      get_heritage_content net location_id lang
      = Raise (HTTPException 500 "Heritage content service unavailable")) /\
  (forall e,
      get_heritage_content net location_id lang = Raise e ->
      e = HTTPException 500 "Heritage content service unavailable").
Proof.
  split; [| split].
  - intros w Hw N. unfold get_heritage_content, heritage_data.
    rewrite Hw. cbn [unless_exception].
    destruct w as [| | | | | d]; try reflexivity. exfalso. now apply (N d).
  - intros w dw Hw Hv N.
    destruct (get_heritage_content net location_id lang) as [r | e] eqn:E.
    + apply get_heritage_content_fields in E.
      destruct E as [dw' [dv [images [cats [categories [facts [notes
        [timeline [_ [Hv' _]]]]]]]]]].
      rewrite Hv in Hv'. apply ok_inj in Hv'. exfalso. now apply (N dv).
    + revert E. unfold get_heritage_content, try_reraise.
      destruct (heritage_data _ _ _ _ _ _); [discriminate |].
      now intros [= <-].
  - intros e. unfold get_heritage_content, try_reraise.
    destruct (heritage_data _ _ _ _ _ _); [discriminate |].
    now intros [= <-].
Qed.

Lemma heritage_page_not_dict_witness :
  get_heritage_content page_is_list "Agra" "en"
  = Raise (HTTPException 500 "Heritage content service unavailable").
Proof.
  apply (proj1 (heritage_page_not_dict page_is_list "Agra" "en") (JList [])).
  - reflexivity.
  - intros d. discriminate.
Defined.

(** X18. The entry of a resolved hit. For a hit titled [File:name] (with no
    further [File:] in the name) and a lookup answer [img_info] that is a
    dict, the entry is titled [name]; its url is the thumbnail url, or the
    full url when there is no thumbnail; its size is the thumbnail's, or
    the full size when there is no thumbnail size; a url or size that the
    answer lacks is [None]. *)
Theorem image_entry_fields (item : json) (name : string)
    (d : list (string * json)) (image_description description : json) :
  getitem item "title" = Ok (JStr ("File:" ++ name)) ->
  contains "File:" name = false ->
  get (or_default d "extmetadata" (JDict [])) "ImageDescription" (JDict [])
  = Ok image_description ->
  get image_description "value" (JStr "") = Ok description ->
  image_entry item (JDict d)
  = Ok (media_asset (JStr name)
          (or_default d "thumburl" (or_default d "url" JNull))
          (or_default d "url" JNull)
          (or_default d "thumbwidth" (or_default d "width" JNull))
          (or_default d "thumbheight" (or_default d "height" JNull))
          description).
Proof.
  intros Ht Hn Hi Hd. unfold image_entry. rewrite Ht.
  cbn [bind str_replace get].
  rewrite (replace_prefix "File:" "" name) by discriminate.
  rewrite (replace_absent "File:" "" name Hn).
  fold (or_default d "extmetadata" (JDict [])).
  rewrite Hi. cbn [bind]. rewrite Hd. reflexivity.
Qed.

Lemma image_entry_fields_witness :
  image_entry (hit "File:Taj Mahal.jpg")
    (JDict [ ("url", JStr "https://upload.example/Taj.jpg");
             ("width", JNum 4000);
             ("thumbwidth", JNum 400) ])
  = Ok (media_asset (JStr "Taj Mahal.jpg")
          (JStr "https://upload.example/Taj.jpg")
          (JStr "https://upload.example/Taj.jpg")
          (JNum 400) JNull (JStr "")).
Proof.
  exact (image_entry_fields (hit "File:Taj Mahal.jpg") "Taj Mahal.jpg"
           [ ("url", JStr "https://upload.example/Taj.jpg");
             ("width", JNum 4000);
             ("thumbwidth", JNum 400) ]
           (JDict []) (JStr "") eq_refl eq_refl eq_refl eq_refl).
Defined.

End HeritageExtras.
